(** * raspberry_pi_math_quiz.py: the LED math quiz, embedded and verified

    The program drives two LEDs through [RPi.GPIO] and talks to the user
    through [input] and [print].  Every call that leaves the program
    (a GPIO call, [time.sleep], [input], [print]) is a primitive of the
    model: it is recorded in a trace together with what it answered, and
    the environment decides whether it raises.  Python exceptions are an
    explicit outcome, [while True] loops take fuel.

    What is taken from Python rather than from the program:
    - integers are unbounded ([Z]); a duration is a rational ([Q]);
    - [int], [str.strip], [str.lower] on ASCII text;
    - [time.sleep] raises [ValueError] on a negative length;
    - an exception raised in a [finally] clause replaces the one in flight;
    - the interpreter ends with status 1 on an unhandled exception, with
      the code of an unhandled [SystemExit], and is killed by SIGINT
      (status 130) on an unhandled [KeyboardInterrupt].
    The state of the output medium is read off the trace of GPIO calls,
    after [RPi.GPIO]: [setup] configures a channel, [output] drives it,
    [cleanup] returns the channels to their unconfigured state.  The
    import of [RPi.GPIO] or of its stand-in [MockGPIO] happens before
    [main] and is not part of the model. *)

From Stdlib Require Import ZArith QArith List String Ascii Bool Lia Arith.
From Stdlib Require DecimalString DecimalPos.
Import ListNotations.

Local Open Scope string_scope.
Local Open Scope Z_scope.

(** ** Python builtins used by the program (ASCII text) *)

Module Py.

(** [str.isspace] on ASCII: TAB..CR, FS..US and the blank. *)
Definition is_space (c : ascii) : bool :=
  let n := nat_of_ascii c in
  ((9 <=? n) && (n <=? 13) || (28 <=? n) && (n <=? 32))%nat.

Definition is_digit (c : ascii) : bool :=
  let n := nat_of_ascii c in ((48 <=? n) && (n <=? 57))%nat.

Definition digit_value (c : ascii) : Z := Z.of_nat (nat_of_ascii c) - 48.

Fixpoint lstrip_chars (l : list ascii) : list ascii :=
  match l with
  | c :: r => if is_space c then lstrip_chars r else l
  | [] => []
  end.

(** [s.strip()] *)
Definition strip (s : string) : string :=
  string_of_list_ascii
    (rev (lstrip_chars (rev (lstrip_chars (list_ascii_of_string s))))).

Definition lower_char (c : ascii) : ascii :=
  let n := nat_of_ascii c in
  if ((65 <=? n) && (n <=? 90))%nat then ascii_of_nat (n + 32) else c.

(** [s.lower()] *)
Definition lower (s : string) : string :=
  string_of_list_ascii (map lower_char (list_ascii_of_string s)).

(** Digits of a decimal literal: one or more digits, single underscores
    allowed between digits only. *)
Fixpoint digits_from (l : list ascii) (acc : Z) (after_digit : bool)
  : option Z :=
  match l with
  | [] => if after_digit then Some acc else None
  | c :: r =>
      if is_digit c then digits_from r (10 * acc + digit_value c) true
      else if Ascii.eqb c "_"
           then (if after_digit then digits_from r acc false else None)
           else None
  end.

(** [int(s)] for a string in base 10; [None] is [ValueError]. *)
Definition int (s : string) : option Z :=
  match lstrip_chars (rev (lstrip_chars (rev (list_ascii_of_string s)))) with
  | "+"%char :: r => digits_from r 0 false
  | "-"%char :: r => option_map Z.opp (digits_from r 0 false)
  | l => digits_from l 0 false
  end.

(** [str(n)] / the [{n}] of an f-string, for an integer. *)
Definition str (n : Z) : string :=
  DecimalString.NilZero.string_of_int (Z.to_int n).

(** The string [\n]. *)
Definition newline : string := String (ascii_of_nat 10) "".

(** [s * n] *)
Fixpoint times (s : string) (n : nat) : string :=
  match n with
  | O => ""
  | S n' => s ++ times s n'
  end.

End Py.

(** ** Exceptions, GPIO constants, events *)

Inductive exn : Type :=
| KeyboardInterrupt
| EOFError
| ValueError
| SystemExit (code : Z)
| OtherError (name : string).

Inductive level : Type := LOW | HIGH.      (* GPIO.LOW = 0, GPIO.HIGH = 1 *)
Inductive numbering : Type := BOARD.       (* GPIO.BOARD *)
Inductive direction : Type := OUT.         (* GPIO.OUT *)

(** Pin Configuration (BOARD numbering) *)
Definition PIN_GREEN_LED : Z := 33.
Definition PIN_RED_LED : Z := 35.

(** Timing *)
Definition LED_ON_DURATION : Q := 5 # 1.

(** A call that leaves the program. *)
Inductive call : Type :=
| GPIO_setwarnings (flag : bool)
| GPIO_setmode (mode : numbering)
| GPIO_setup (pin : Z) (mode : direction)
| GPIO_output (pin : Z) (state : level)
| GPIO_cleanup
| time_sleep (duration : Q)
| input (prompt : string)
| print (text : string).

(** What the call answered. *)
Inductive reply : Type :=
| Done
| Line (s : string)
| Raised (e : exn).

Definition event : Type := (call * reply)%type.

(** ** The world: pending input, pending faults, what happened so far

    [stdin] holds the lines the user will type; when it is empty [input]
    raises [EOFError].  [faults] is consumed one entry per primitive call:
    [Some e] makes that call raise [e] without any effect (this is how
    Ctrl-C, a failing GPIO call or a closed stdout enter the model); an
    exhausted list means no further fault. *)

Record World : Type := mkWorld {
  stdin : list string;
  faults : list (option exn);
  trace : list event
}.

Inductive outcome (A : Type) : Type :=
| Ret (a : A)
| Raise (e : exn)
| Diverge.
Arguments Ret {A} a.
Arguments Raise {A} e.
Arguments Diverge {A}.

Definition M (A : Type) : Type := World -> outcome A * World.

Definition ret {A} (a : A) : M A := fun w => (Ret a, w).
Definition raise {A} (e : exn) : M A := fun w => (Raise e, w).
Definition diverge {A} : M A := fun w => (Diverge, w).

Definition bind {A B} (m : M A) (k : A -> M B) : M B :=
  fun w =>
    match m w with
    | (Ret a, w1) => k a w1
    | (Raise e, w1) => (Raise e, w1)
    | (Diverge, w1) => (Diverge, w1)
    end.

Notation "x <- m ;; k" := (bind m (fun x => k))
  (at level 61, m at next level, right associativity).
Notation "m ;; k" := (bind m (fun _ => k))
  (at level 61, right associativity).

(** [try: m  except <handled by h>: ...]: [h e = None] means no clause
    matches [e]; an exception raised by a handler is not handled again. *)
Definition try_except {A} (m : M A) (h : exn -> option (M A)) : M A :=
  fun w =>
    match m w with
    | (Raise e, w1) =>
        match h e with
        | Some handler => handler w1
        | None => (Raise e, w1)
        end
    | r => r
    end.

(** [try: m  finally: f]: [f] runs however [m] ended; if [f] raises, that
    exception replaces whatever [m] produced. *)
Definition try_finally {A} (m : M A) (f : M unit) : M A :=
  fun w =>
    match m w with
    | (Diverge, w1) => (Diverge, w1)
    | (r, w1) =>
        match f w1 with
        | (Ret _, w2) => (r, w2)
        | (Raise e, w2) => (Raise e, w2)
        | (Diverge, w2) => (Diverge, w2)
        end
    end.

(** What a call answers when the environment lets it through. *)
Definition answer (c : call) (w : World) : reply * list string :=
  match c with
  | input _ =>
      match stdin w with
      | [] => (Raised EOFError, [])
      | s :: rest => (Line s, rest)
      end
  | time_sleep d =>
      (* time.sleep raises ValueError on a negative length *)
      if Qle_bool 0 d then (Done, stdin w) else (Raised ValueError, stdin w)
  | _ => (Done, stdin w)
  end.

Definition reply_outcome (r : reply) : outcome reply :=
  match r with
  | Raised e => Raise e
  | _ => Ret r
  end.

(** One primitive call: the head of [faults] is the fault scheduled for
    it ([None] when the schedule is exhausted). *)
Definition perform (c : call) : M reply :=
  fun w =>
    match hd None (faults w) with
    | Some e =>
        (Raise e, mkWorld (stdin w) (tl (faults w)) (trace w ++ [(c, Raised e)]))
    | None =>
        let (r, rest) := answer c w in
        (reply_outcome r, mkWorld rest (tl (faults w)) (trace w ++ [(c, r)]))
    end.

Definition do (c : call) : M unit := perform c ;; ret tt.

Definition read_line (prompt : string) : M string :=
  r <- perform (input prompt) ;;
  match r with
  | Line s => ret s
  | _ => ret ""
  end.

(** ** The program *)

(** [gpio_context], lines 93-99: what runs before the [yield]. *)
Definition gpio_context_setup : M unit :=
  do (GPIO_setwarnings false) ;;
  do (GPIO_setmode BOARD) ;;
  do (GPIO_setup PIN_GREEN_LED OUT) ;;
  do (GPIO_setup PIN_RED_LED OUT) ;;
  (* Initialize both LEDs to OFF (HIGH = off for active-low configuration) *)
  do (GPIO_output PIN_GREEN_LED HIGH) ;;
  do (GPIO_output PIN_RED_LED HIGH).

(** [with gpio_context(): body].  The generator's [try] encloses the set-up
    and the [yield], so [body] runs where the [yield] stands and
    [GPIO.cleanup()] is the [finally] of both. *)
Definition gpio_context {A} (body : M A) : M A :=
  try_finally (gpio_context_setup ;; body) (do GPIO_cleanup).

Definition flash_led (pin : Z) (duration : Q) : M unit :=
  do (GPIO_output pin LOW) ;;    (* Turn ON *)
  do (time_sleep duration) ;;
  do (GPIO_output pin HIGH).     (* Turn OFF *)

Definition sys_exit {A} (code : Z) : M A := raise (SystemExit code).

Definition invalid_integer_message : string := "❌ Please enter a valid integer.".
Definition stream_closed_message : string :=
  Py.newline ++ "⚠️  Input stream closed.".

(** One pass through the [try] statement of [get_integer_input]:
    [Some n] is the [return], [None] falls through to the next iteration. *)
Definition get_integer_input_attempt (prompt : string) : M (option Z) :=
  try_except
    (s <- read_line prompt ;;
     match Py.int s with
     | Some n => ret (Some n)
     | None => raise ValueError
     end)
    (fun e =>
       match e with
       | ValueError => Some (do (print invalid_integer_message) ;; ret None)
       | EOFError => Some (do (print stream_closed_message) ;; sys_exit 1)
       | _ => None
       end).

Fixpoint get_integer_input (fuel : nat) (prompt : string) : M Z :=
  match fuel with
  | O => diverge
  | S fuel' =>
      r <- get_integer_input_attempt prompt ;;
      match r with
      | Some n => ret n
      | None => get_integer_input fuel' prompt
      end
  end.

Definition sum_prompt (num1 num2 : Z) : string :=
  "What is " ++ Py.str num1 ++ " + " ++ Py.str num2 ++ "? ".

Definition correct_message (num1 num2 correct_answer : Z) : string :=
  "✅ Correct! " ++ Py.str num1 ++ " + " ++ Py.str num2 ++ " = "
  ++ Py.str correct_answer.

Definition wrong_message (num1 num2 correct_answer user_answer : Z) : string :=
  "❌ Wrong! " ++ Py.str num1 ++ " + " ++ Py.str num2 ++ " = "
  ++ Py.str correct_answer ++ " (you said " ++ Py.str user_answer ++ ")".

(** [run_quiz], lines 165-176: the feedback for one answered question. *)
Definition feedback (num1 num2 user_answer : Z) : M unit :=
  let correct_answer := num1 + num2 in
  if user_answer =? correct_answer then
    do (print (correct_message num1 num2 correct_answer)) ;;
    do (print "🟢 Green LED ON") ;;
    flash_led PIN_GREEN_LED LED_ON_DURATION
  else
    do (print (wrong_message num1 num2 correct_answer user_answer)) ;;
    do (print "🔴 Red LED ON") ;;
    flash_led PIN_RED_LED LED_ON_DURATION.

(** [run_quiz], lines 160-176: the three questions and the feedback. *)
Definition quiz_round (fuel : nat) : M unit :=
  num1 <- get_integer_input fuel "Enter first number: " ;;
  num2 <- get_integer_input fuel "Enter second number: " ;;
  user_answer <- get_integer_input fuel (sum_prompt num1 num2) ;;
  feedback num1 num2 user_answer.

(** The answer at the continue prompt that keeps the loop going:
    [input(...).strip().lower() == 'y']. *)
Definition affirmative (s : string) : bool :=
  String.eqb (Py.lower (Py.strip s)) "y".

(** [run_quiz], lines 159-183: the [while True] loop. *)
Fixpoint quiz_loop (fuel : nat) : M unit :=
  match fuel with
  | O => diverge
  | S fuel' =>
      quiz_round fuel ;;
      (* Ask to continue *)
      do (print "") ;;
      again <- read_line "Try another? (y/n): " ;;
      if negb (affirmative again) then ret tt   (* break *)
      else do (print "") ;; quiz_loop fuel'
  end.

Definition goodbye_message : string :=
  Py.newline ++ Py.newline ++ "👋 Quiz ended. Goodbye!".

(** [run_quiz], lines 158-186: the body of the [with] statement. *)
Definition quiz_body (fuel : nat) : M unit :=
  try_except (quiz_loop fuel)
    (fun e =>
       match e with
       | KeyboardInterrupt => Some (do (print goodbye_message))
       | _ => None
       end).

Definition banner : M unit :=
  do (print (Py.newline ++ Py.times "=" 50)) ;;
  do (print "🧮 RASPBERRY PI MATH QUIZ") ;;
  do (print (Py.times "=" 50)) ;;
  do (print "Answer correctly to see the GREEN light!") ;;
  do (print ("Wrong answers get the RED light." ++ Py.newline)).

Definition run_quiz (fuel : nat) : M unit :=
  banner ;;
  gpio_context (quiz_body fuel).

Definition main (fuel : nat) : M Z :=
  run_quiz fuel ;;
  ret 0.

(** [sys.exit(main())] at the top level: the status the process ends with.
    An exception nobody handled ends the interpreter with a non-zero
    status: 1 after the traceback, 130 (death by SIGINT) for
    [KeyboardInterrupt]; [SystemExit] carries its own.  [None]: the run
    did not end within the fuel. *)
Definition exit_status (o : outcome Z) : option Z :=
  match o with
  | Ret code => Some code
  | Raise (SystemExit code) => Some code
  | Raise KeyboardInterrupt => Some 130
  | Raise _ => Some 1
  | Diverge => None
  end.

Definition script (fuel : nat) (w : World) : option Z * World :=
  let (o, w') := main fuel w in (exit_status o, w').

Definition session (lines : list string) (fs : list (option exn)) : World :=
  mkWorld lines fs [].

(** ** The GPIO module and its stand-in

    The program reaches the hardware through the module bound to [GPIO]:
    [RPi.GPIO] when it can be imported, else an instance of [MockGPIO].
    A module is its four constants and five functions. *)

Record gpio_module : Type := {
  mode_t : Type;
  direction_t : Type;
  state_t : Type;
  gpio_BOARD : mode_t;
  gpio_OUT : direction_t;
  gpio_HIGH : state_t;
  gpio_LOW : state_t;
  gpio_setwarnings : bool -> M unit;
  gpio_setmode : mode_t -> M unit;
  gpio_setup : Z -> direction_t -> M unit;
  gpio_output : Z -> state_t -> M unit;
  gpio_cleanup : M unit
}.

(** [RPi.GPIO]: the calls are the primitives of the model. *)
Definition RPi_GPIO : gpio_module := {|
  gpio_BOARD := BOARD;
  gpio_OUT := OUT;
  gpio_HIGH := HIGH;
  gpio_LOW := LOW;
  gpio_setwarnings := fun flag => do (GPIO_setwarnings flag);
  gpio_setmode := fun mode => do (GPIO_setmode mode);
  gpio_setup := fun pin mode => do (GPIO_setup pin mode);
  gpio_output := fun pin state => do (GPIO_output pin state);
  gpio_cleanup := do GPIO_cleanup
|}.

(** Mock GPIO class for testing on non-Raspberry Pi systems. *)
Module MockGPIO.

Definition BOARD : string := "BOARD".
Definition OUT : string := "OUT".
Definition HIGH : Z := 1.
Definition LOW : Z := 0.

Definition setwarnings (flag : bool) : M unit := ret tt.   (* pass *)

Definition setmode (mode : string) : M unit :=
  do (print ("[SIM] GPIO mode set to " ++ mode)).

Definition setup (pin : Z) (mode : string) : M unit :=
  do (print ("[SIM] Pin " ++ Py.str pin ++ " configured as " ++ mode)).

Definition output (pin : Z) (state : Z) : M unit :=
  let state_str := if state =? 0 then "LOW" else "HIGH" in
  do (print ("[SIM] Pin " ++ Py.str pin ++ " → " ++ state_str)).

Definition cleanup : M unit := do (print "[SIM] GPIO cleanup complete").

Definition module : gpio_module := {|
  gpio_BOARD := BOARD;
  gpio_OUT := OUT;
  gpio_HIGH := HIGH;
  gpio_LOW := LOW;
  gpio_setwarnings := setwarnings;
  gpio_setmode := setmode;
  gpio_setup := setup;
  gpio_output := output;
  gpio_cleanup := cleanup
|}.

End MockGPIO.

(** The program over whichever module [GPIO] is bound to. *)
Section Backend.

Variable GPIO : gpio_module.

Definition gpio_context_setup_on : M unit :=
  gpio_setwarnings GPIO false ;;
  gpio_setmode GPIO (gpio_BOARD GPIO) ;;
  gpio_setup GPIO PIN_GREEN_LED (gpio_OUT GPIO) ;;
  gpio_setup GPIO PIN_RED_LED (gpio_OUT GPIO) ;;
  gpio_output GPIO PIN_GREEN_LED (gpio_HIGH GPIO) ;;
  gpio_output GPIO PIN_RED_LED (gpio_HIGH GPIO).

Definition gpio_context_on {A} (body : M A) : M A :=
  try_finally (gpio_context_setup_on ;; body) (gpio_cleanup GPIO).

Definition flash_led_on (pin : Z) (duration : Q) : M unit :=
  gpio_output GPIO pin (gpio_LOW GPIO) ;;
  do (time_sleep duration) ;;
  gpio_output GPIO pin (gpio_HIGH GPIO).

Definition feedback_on (num1 num2 user_answer : Z) : M unit :=
  let correct_answer := num1 + num2 in
  if user_answer =? correct_answer then
    do (print (correct_message num1 num2 correct_answer)) ;;
    do (print "🟢 Green LED ON") ;;
    flash_led_on PIN_GREEN_LED LED_ON_DURATION
  else
    do (print (wrong_message num1 num2 correct_answer user_answer)) ;;
    do (print "🔴 Red LED ON") ;;
    flash_led_on PIN_RED_LED LED_ON_DURATION.

Definition quiz_round_on (fuel : nat) : M unit :=
  num1 <- get_integer_input fuel "Enter first number: " ;;
  num2 <- get_integer_input fuel "Enter second number: " ;;
  user_answer <- get_integer_input fuel (sum_prompt num1 num2) ;;
  feedback_on num1 num2 user_answer.

Fixpoint quiz_loop_on (fuel : nat) : M unit :=
  match fuel with
  | O => diverge
  | S fuel' =>
      quiz_round_on fuel ;;
      do (print "") ;;
      again <- read_line "Try another? (y/n): " ;;
      if negb (affirmative again) then ret tt
      else do (print "") ;; quiz_loop_on fuel'
  end.

Definition quiz_body_on (fuel : nat) : M unit :=
  try_except (quiz_loop_on fuel)
    (fun e =>
       match e with
       | KeyboardInterrupt => Some (do (print goodbye_message))
       | _ => None
       end).

Definition run_quiz_on (fuel : nat) : M unit :=
  banner ;;
  gpio_context_on (quiz_body_on fuel).

End Backend.

(** What a call of [RPi.GPIO] becomes under [MockGPIO]: its [SIM] line,
    or nothing for [setwarnings]. *)
Definition sim_event (ev : event) : list event :=
  match ev with
  | (GPIO_setwarnings _, _) => []
  | (GPIO_setmode BOARD, r) => [(print "[SIM] GPIO mode set to BOARD", r)]
  | (GPIO_setup pin OUT, r) =>
      [(print ("[SIM] Pin " ++ Py.str pin ++ " configured as OUT"), r)]
  | (GPIO_output pin LOW, r) =>
      [(print ("[SIM] Pin " ++ Py.str pin ++ " → LOW"), r)]
  | (GPIO_output pin HIGH, r) =>
      [(print ("[SIM] Pin " ++ Py.str pin ++ " → HIGH"), r)]
  | (GPIO_cleanup, r) => [(print "[SIM] GPIO cleanup complete", r)]
  | _ => [ev]
  end.

Definition simulated (w : World) : World :=
  mkWorld (stdin w) (faults w) (flat_map sim_event (trace w)).

Definition is_gpio (ev : event) : bool :=
  match fst ev with
  | GPIO_setwarnings _ | GPIO_setmode _ | GPIO_setup _ _
  | GPIO_output _ _ | GPIO_cleanup => true
  | _ => false
  end.

(** Without faults, [sim] does under [MockGPIO] what [hw] does on the
    hardware. *)
Definition mirrors {A} (hw sim : M A) : Prop :=
  forall w, faults w = [] ->
    sim (simulated w) = (fst (hw w), simulated (snd (hw w)))
    /\ faults (snd (hw w)) = [].

(** ** Observations on traces *)

(** The output medium as the GPIO calls leave it.  [GPIO.setup(pin, OUT)]
    makes the pin an output, [GPIO.output] drives it, [GPIO.cleanup()]
    returns every channel to its unconfigured state; a call that raised
    had no effect. *)
Inductive pin_state : Type :=
| Unconfigured
| Configured
| Driven (l : level).

Definition medium : Type := Z -> pin_state.

Definition unconfigured : medium := fun _ => Unconfigured.

Definition set_pin (m : medium) (pin : Z) (s : pin_state) : medium :=
  fun p => if p =? pin then s else m p.

Definition apply_event (m : medium) (ev : event) : medium :=
  match ev with
  | (GPIO_setup pin OUT, Done) => set_pin m pin Configured
  | (GPIO_output pin l, Done) => set_pin m pin (Driven l)
  | (GPIO_cleanup, Done) => unconfigured
  | _ => m
  end.

Definition medium_after (d : list event) (m : medium) : medium :=
  fold_left apply_event d m.

(** Active-low wiring: LOW = ON, HIGH = OFF. *)
Definition ASSERTED : pin_state := Driven LOW.
Definition DEASSERTED : pin_state := Driven HIGH.

Definition lines_idle (m : medium) : Prop :=
  m PIN_GREEN_LED = DEASSERTED /\ m PIN_RED_LED = DEASSERTED.

(** A completed pulse starts here: assert, hold, deassert on one pin. *)
Definition pulse_at (d : list event) : option Z :=
  match d with
  | (GPIO_output p LOW, Done) :: (time_sleep _, Done)
      :: (GPIO_output q HIGH, Done) :: _ =>
      if p =? q then Some p else None
  | _ => None
  end.

(** The pins pulsed in a stretch of trace, in order. *)
Fixpoint pulsed (d : list event) : list Z :=
  match d with
  | [] => []
  | _ :: r =>
      match pulse_at d with
      | Some p => p :: pulsed r
      | None => pulsed r
      end
  end.

(** The calls that raised, with what they raised, in order. *)
Fixpoint raises (d : list event) : list (call * exn) :=
  match d with
  | [] => []
  | (c, Raised e) :: r => (c, e) :: raises r
  | _ :: r => raises r
  end.

Definition is_call (c : call) (ev : event) : bool :=
  match c, fst ev with
  | GPIO_cleanup, GPIO_cleanup => true
  | GPIO_setwarnings _, GPIO_setwarnings _ => true
  | _, _ => false
  end.

(** How often [GPIO.cleanup()] / the first call of the set-up was made. *)
Definition releases (d : list event) : nat :=
  List.length (filter (is_call GPIO_cleanup) d).
Definition initializations (d : list event) : nat :=
  List.length (filter (is_call (GPIO_setwarnings false)) d).

Definition is_prompt (ev : event) : bool :=
  match fst ev with input _ => true | _ => false end.


(** An event of a quiz round: a prompt, or lighting a LED. *)
Definition round_event (ev : event) : bool :=
  match fst ev with
  | input _ | GPIO_output _ LOW => true
  | _ => false
  end.

(** A GPIO call or a sleep that raised. *)
Definition hardware_fault (ev : event) : bool :=
  match ev with
  | (input _, _) | (print _, _) => false
  | (_, Raised _) => true
  | _ => false
  end.

(** No fault is scheduled for the next [n] calls. *)
Definition calm (n : nat) (fs : list (option exn)) : Prop :=
  Forall (fun f => f = None) (firstn n fs).

(** What is left of the environment: bounds the length of a run. *)
Definition pending (w : World) : nat :=
  (List.length (stdin w) + List.length (faults w))%nat.

(** [m] ends whatever the world, and leaves no more pending than it found. *)
Definition steady {A} (m : M A) : Prop :=
  forall w, fst (m w) <> Diverge /\ (pending (snd (m w)) <= pending w)%nat.

(** ** Specifications by trace

    [sat m Phi]: from any world, [m] appends some events [d] to the trace
    and [Phi d o] holds of them and of how [m] ended. *)

Definition ended {A} (o : outcome A) : outcome unit :=
  match o with
  | Ret _ => Ret tt
  | Raise e => Raise e
  | Diverge => Diverge
  end.

Definition reply_ended (r : reply) : outcome unit :=
  match r with Raised e => Raise e | _ => Ret tt end.

(** The replies a call can get: a line for a prompt, [Done] otherwise,
    or an exception. *)
Definition fits (c : call) (r : reply) : Prop :=
  match r, c with
  | Raised _, _ => True
  | Line _, input _ => True
  | Done, input _ => False
  | Done, _ => True
  | Line _, _ => False
  end.

Definition sat {A} (m : M A) (Phi : list event -> outcome unit -> Prop) : Prop :=
  forall w, exists d,
    trace (snd (m w)) = (trace w ++ d)%list /\ Phi d (ended (fst (m w))).

(** [Phi] survives sequencing. *)
Record sequential (Phi : list event -> outcome unit -> Prop) : Prop := {
  seq_nil : Phi [] (Ret tt);
  seq_app : forall d1 d2 o, Phi d1 (Ret tt) -> Phi d2 o -> Phi (d1 ++ d2)%list o
}.


(** Unless a GPIO call or a sleep raised, idle lines are idle again. *)
Definition keeps_idle (d : list event) (_ : outcome unit) : Prop :=
  forallb (fun ev => negb (hardware_fault ev)) d = true ->
  forall m, lines_idle m -> lines_idle (medium_after d m).

(** Only prompts, prints, sleeps and writes to the two LED pins. *)
Definition loop_event (ev : event) : bool :=
  match fst ev with
  | input _ | print _ | time_sleep _ => true
  | GPIO_output p _ => (p =? PIN_GREEN_LED) || (p =? PIN_RED_LED)
  | _ => false
  end.

(** Every event passes the test [p]. *)
Definition only (p : event -> bool) (d : list event) (_ : outcome unit) : Prop :=
  forallb p d = true.

Definition in_loop : list event -> outcome unit -> Prop := only loop_event.

(** A sleep, or a write to [pin]. *)
Definition touches_only (pin : Z) (ev : event) : bool :=
  match fst ev with
  | time_sleep _ => true
  | GPIO_output q _ => q =? pin
  | _ => false
  end.

(** Sample sessions. *)
Definition red_setup_fails : World :=
  session ["3"] [None; None; None; Some (OtherError "RuntimeError")].

Definition setup_fails_in_run : World :=
  session ["3"; "4"; "7"; "n"]
          (repeat None 7 ++ [Some (OtherError "RuntimeError")]).

Definition interrupted_mid_pulse : World :=
  session ["3"; "4"; "7"; "n"] (repeat None 12 ++ [Some KeyboardInterrupt]).



(** The trace of a set-up in which no call failed. *)
Definition setup_events : list event :=
  [(GPIO_setwarnings false, Done); (GPIO_setmode BOARD, Done);
   (GPIO_setup PIN_GREEN_LED OUT, Done); (GPIO_setup PIN_RED_LED OUT, Done);
   (GPIO_output PIN_GREEN_LED HIGH, Done); (GPIO_output PIN_RED_LED HIGH, Done)].



(** The medium as the whole trace of a world leaves it. *)
Definition medium_of (w : World) : medium :=
  medium_after (trace w) unconfigured.






(** Both LEDs lit / some LED lit. *)
Definition both_on (m : medium) : bool :=
  match m PIN_GREEN_LED, m PIN_RED_LED with
  | Driven LOW, Driven LOW => true
  | _, _ => false
  end.

Definition led_on (m : medium) : bool :=
  match m PIN_GREEN_LED, m PIN_RED_LED with
  | Driven LOW, _ => true
  | _, Driven LOW => true
  | _, _ => false
  end.

Definition led_pin (p : Z) : bool :=
  (p =? PIN_GREEN_LED) || (p =? PIN_RED_LED).

Definition is_output (s : pin_state) : bool :=
  match s with
  | Unconfigured => false
  | _ => true
  end.

(** [ok] holds of every event of [d] in the state of the medium it
    happens in, starting from [m]. *)
Fixpoint stepwise (ok : medium -> event -> bool) (m : medium) (d : list event)
  : bool :=
  match d with
  | [] => true
  | ev :: r => ok m ev && stepwise ok (apply_event m ev) r
  end.

(** The event does not leave both LEDs lit. *)
Definition one_at_a_time (m : medium) (ev : event) : bool :=
  negb (both_on (apply_event m ev)).

(** The event is within the use the program makes of the hardware: only
    the two LED pins are set up or written, a pin is written only while
    it is set up, and a sleep lasts [LED_ON_DURATION] and happens while a
    LED is lit. *)
Definition in_protocol (m : medium) (ev : event) : bool :=
  match fst ev with
  | GPIO_setup p _ => led_pin p
  | GPIO_output p _ => led_pin p && is_output (m p)
  | time_sleep d => Qeq_bool d LED_ON_DURATION && led_on m
  | _ => true
  end.

Definition disciplined (m : medium) (ev : event) : bool :=
  one_at_a_time m ev && in_protocol m ev.

(** From idle lines the events are disciplined, never leave both LEDs
    lit, and leave the lines idle if the computation returns. *)
Definition orderly (d : list event) (o : outcome unit) : Prop :=
  forall m, lines_idle m ->
    stepwise disciplined m d = true
    /\ both_on (medium_after d m) = false
    /\ (o = Ret tt -> lines_idle (medium_after d m)).

Definition io_event (ev : event) : bool :=
  match fst ev with
  | input _ | print _ => true
  | _ => false
  end.



(** ** Primitive calls *)

Lemma perform_run (c : call) (w : World) :
  exists r w',
    perform c w = (reply_outcome r, w')
    /\ trace w' = (trace w ++ [(c, r)])%list
    /\ fits c r
    /\ (pending w' <= pending w)%nat
    /\ (r <> Raised EOFError -> is_prompt (c, r) = true ->
        (pending w' < pending w)%nat).
Proof.
  unfold perform, pending.
  destruct (hd None (faults w)) as [e|] eqn:Hf.
  - exists (Raised e). eexists. split; [reflexivity|]. simpl.
    destruct (faults w); simpl in *; [discriminate|].
    repeat split; auto; lia.
  - destruct (answer c w) as [r rest] eqn:Ha.
    exists r. eexists. split; [reflexivity|]. simpl.
    assert (Hl : (List.length (tl (faults w)) <= List.length (faults w))%nat)
      by (destruct (faults w); simpl; lia).
    destruct c as [b|mo|pin mo|pin st| |dur|pr|tx]; simpl in Ha;
      [ | | | | | destruct (Qle_bool 0 dur) | destruct (stdin w) as [|s si] | ];
      inversion Ha; subst; simpl;
      repeat split; auto; try lia; try discriminate; try congruence.
Qed.

Lemma ended_reply (r : reply) : ended (reply_outcome r) = reply_ended r.
Proof. destruct r; reflexivity. Qed.

Lemma do_run (c : call) (w : World) :
  exists r w',
    do c w = (reply_ended r, w')
    /\ trace w' = (trace w ++ [(c, r)])%list
    /\ fits c r
    /\ (pending w' <= pending w)%nat.
Proof.
  destruct (perform_run c w) as (r & w' & Hp & Ht & Hf & Hm & _).
  exists r, w'. unfold do, bind. rewrite Hp.
  repeat split; auto. destruct r; reflexivity.
Qed.

Lemma read_line_run (p : string) (w : World) :
  exists r w',
    trace w' = (trace w ++ [(input p, r)])%list
    /\ (pending w' <= pending w)%nat
    /\ ((exists s, r = Line s /\ read_line p w = (Ret s, w')
                   /\ (pending w' < pending w)%nat)
        \/ (exists e, r = Raised e /\ read_line p w = (Raise e, w')
                      /\ (e <> EOFError -> (pending w' < pending w)%nat))).
Proof.
  destruct (perform_run (input p) w) as (r & w' & Hp & Ht & Hf & Hm & Hs).
  exists r, w'. unfold read_line, bind. rewrite Hp.
  repeat split; auto. destruct r as [|s|e]; simpl in *.
  - contradiction.
  - left. exists s. repeat split; auto. apply Hs; [discriminate | reflexivity].
  - right. exists e. repeat split; auto.
    intro He. apply Hs; [congruence | reflexivity].
Qed.

Lemma do_trace (c : call) (w : World) :
  exists r,
    trace (snd (do c w)) = (trace w ++ [(c, r)])%list
    /\ ended (fst (do c w)) = reply_ended r
    /\ fits c r.
Proof.
  destruct (do_run c w) as (r & w' & Hd & Ht & Hf & _).
  exists r. rewrite Hd. simpl. repeat split; auto. destruct r; reflexivity.
Qed.

Lemma read_line_trace (p : string) (w : World) :
  exists r,
    trace (snd (read_line p w)) = (trace w ++ [(input p, r)])%list
    /\ ended (fst (read_line p w)) = reply_ended r.
Proof.
  destruct (read_line_run p w)
    as (r & w' & Ht & _ & [(s & Er & Hr & _) | (e & Er & Hr & _)]);
    exists r; rewrite Hr, Er; simpl; subst r; auto.
Qed.

(** ** Rules of the trace logic *)

Section Rules.

Variable Phi : list event -> outcome unit -> Prop.
Hypothesis Phi_seq : sequential Phi.

Lemma sat_ret {A} (a : A) : sat (ret a) Phi.
Proof.
  intro w. exists []. simpl. rewrite app_nil_r.
  split; [reflexivity | apply Phi_seq].
Qed.

Lemma sat_bind {A B} (m : M A) (k : A -> M B) :
  sat m Phi -> (forall a, sat (k a) Phi) -> sat (bind m k) Phi.
Proof.
  intros Hm Hk w. destruct (Hm w) as (d1 & Ht1 & H1).
  unfold bind. destruct (m w) as [[a|e|] w1]; simpl in *.
  - destruct (Hk a w1) as (d2 & Ht2 & H2).
    exists (d1 ++ d2)%list. split.
    + rewrite Ht2, Ht1, app_assoc. reflexivity.
    + apply Phi_seq; assumption.
  - exists d1. auto.
  - exists d1. auto.
Qed.

Lemma sat_do (c : call) :
  (forall r, fits c r -> Phi [(c, r)] (reply_ended r)) -> sat (do c) Phi.
Proof.
  intros H w. destruct (do_trace c w) as (r & Ht & Ho & Hf).
  exists [(c, r)]. rewrite Ho. auto.
Qed.

Lemma sat_read_line (p : string) :
  (forall r, Phi [(input p, r)] (reply_ended r)) -> sat (read_line p) Phi.
Proof.
  intros H w. destruct (read_line_trace p w) as (r & Ht & Ho).
  exists [(input p, r)]. rewrite Ho. auto.
Qed.

(** The quiz loop satisfies every sequential [Phi] that its four
    building blocks satisfy. *)
Hypothesis Phi_diverge : Phi [] Diverge.
Hypothesis Phi_print : forall s, sat (do (print s)) Phi.
Hypothesis Phi_read : forall p, sat (read_line p) Phi.
Hypothesis Phi_attempt : forall p, sat (get_integer_input_attempt p) Phi.
Hypothesis Phi_flash :
  forall pin, pin = PIN_GREEN_LED \/ pin = PIN_RED_LED ->
              sat (flash_led pin LED_ON_DURATION) Phi.

Lemma sat_diverge {A} : sat (@diverge A) Phi.
Proof.
  intro w. exists []. simpl. rewrite app_nil_r. auto.
Qed.

Lemma get_integer_input_sat (fuel : nat) (p : string) :
  sat (get_integer_input fuel p) Phi.
Proof.
  induction fuel as [|fuel IH]; simpl.
  - apply sat_diverge.
  - apply sat_bind; [apply Phi_attempt|].
    intros [n|]; [apply sat_ret | exact IH].
Qed.

Lemma feedback_sat (num1 num2 user_answer : Z) :
  sat (feedback num1 num2 user_answer) Phi.
Proof.
  unfold feedback.
  destruct (user_answer =? num1 + num2);
    repeat (apply sat_bind; [apply Phi_print | intros _]);
    apply Phi_flash; auto.
Qed.

Lemma quiz_round_sat (fuel : nat) : sat (quiz_round fuel) Phi.
Proof.
  unfold quiz_round.
  repeat (apply sat_bind; [apply get_integer_input_sat | intro]).
  apply feedback_sat.
Qed.

Lemma quiz_loop_sat (fuel : nat) : sat (quiz_loop fuel) Phi.
Proof.
  induction fuel as [|fuel IH].
  - apply sat_diverge.
  - change (quiz_loop (S fuel)) with
      (quiz_round (S fuel) ;;
       do (print "") ;;
       again <- read_line "Try another? (y/n): " ;;
       if negb (affirmative again) then ret tt
       else do (print "") ;; quiz_loop fuel).
    apply sat_bind; [apply quiz_round_sat | intros _].
    apply sat_bind; [apply Phi_print | intros _].
    apply sat_bind; [apply Phi_read | intros again].
    destruct (negb (affirmative again)); [apply sat_ret|].
    apply sat_bind; [apply Phi_print | intros _]. exact IH.
Qed.

End Rules.

(** Rules for a [Phi] that looks at the events only. *)
Section EventRules.

Variable Phi : list event -> outcome unit -> Prop.
Hypothesis Phi_seq : sequential Phi.
Hypothesis Phi_blind : forall d o o', Phi d o -> Phi d o'.

Lemma sat_raise {A} (e : exn) : sat (@raise A e) Phi.
Proof.
  intro w. exists []. simpl. rewrite app_nil_r.
  split; [reflexivity | apply (Phi_blind [] (Ret tt)), Phi_seq].
Qed.

Lemma sat_try_except {A} (m : M A) (h : exn -> option (M A)) :
  sat m Phi ->
  (forall e handler, h e = Some handler -> sat handler Phi) ->
  sat (try_except m h) Phi.
Proof.
  intros Hm Hh w. destruct (Hm w) as (d1 & Ht1 & H1).
  unfold try_except. destruct (m w) as [[a|e|] w1]; simpl in *;
    try (exists d1; auto; fail).
  destruct (h e) as [handler|] eqn:He; [|exists d1; auto].
  destruct (Hh e handler He w1) as (d2 & Ht2 & H2).
  exists (d1 ++ d2)%list. split.
  - rewrite Ht2, Ht1, app_assoc. reflexivity.
  - apply Phi_seq; [apply (Phi_blind d1 (Raise e)) |]; assumption.
Qed.

Lemma sat_try_finally {A} (m : M A) (f : M unit) :
  sat m Phi -> sat f Phi -> sat (try_finally m f) Phi.
Proof.
  intros Hm Hf w. destruct (Hm w) as (d1 & Ht1 & H1).
  unfold try_finally.
  destruct (m w) as [[a|e|] w1]; simpl in *; try (exists d1; auto; fail);
    destruct (Hf w1) as (d2 & Ht2 & H2);
    exists (d1 ++ d2)%list;
    (split;
     [ destruct (f w1) as [[[]|e2|] w2]; simpl in *;
       rewrite Ht2, Ht1, app_assoc; reflexivity
     | apply (Phi_blind _ (ended (fst (f w1)))), Phi_seq;
       [eapply Phi_blind; eassumption | assumption] ]).
Qed.

Hypothesis Phi_print : forall s, sat (do (print s)) Phi.
Hypothesis Phi_read : forall p, sat (read_line p) Phi.

Lemma get_integer_input_attempt_sat (p : string) :
  sat (get_integer_input_attempt p) Phi.
Proof.
  unfold get_integer_input_attempt. apply sat_try_except.
  - apply sat_bind; [assumption | apply Phi_read |].
    intro s. destruct (Py.int s); [apply sat_ret; assumption | apply sat_raise].
  - intros e handler He.
    destruct e; inversion He; subst;
      (apply sat_bind; [assumption | apply Phi_print | intros _]);
      [apply sat_raise | apply sat_ret; assumption].
Qed.

Lemma quiz_body_sat (fuel : nat) :
  (forall pin, pin = PIN_GREEN_LED \/ pin = PIN_RED_LED ->
               sat (flash_led pin LED_ON_DURATION) Phi) ->
  sat (quiz_body fuel) Phi.
Proof.
  intro Hflash. unfold quiz_body. apply sat_try_except.
  - apply quiz_loop_sat; auto.
    + apply (Phi_blind [] (Ret tt)), Phi_seq.
    + apply get_integer_input_attempt_sat.
  - intros e handler He. destruct e; inversion He; subst. apply Phi_print.
Qed.

End EventRules.

(** ** The three trace properties of the loop *)

Lemma medium_after_app (d1 d2 : list event) (m : medium) :
  medium_after (d1 ++ d2) m = medium_after d2 (medium_after d1 m).
Proof. apply fold_left_app. Qed.


(** *** Every event of the loop is a prompt, a print, a sleep or a write
        to one of the two LED pins *)

Lemma only_sequential (p : event -> bool) : sequential (only p).
Proof.
  split; [reflexivity|].
  unfold only. intros d1 d2 _ H1 H2. rewrite forallb_app, H1, H2. reflexivity.
Qed.

Lemma sat_do_only (p : event -> bool) (c : call) :
  (forall r, p (c, r) = true) -> sat (do c) (only p).
Proof.
  intro H. apply sat_do. intros r _. unfold only. simpl. rewrite H. reflexivity.
Qed.

Lemma in_loop_sequential : sequential in_loop.
Proof. apply only_sequential. Qed.

Lemma flash_led_only (p : event -> bool) (pin : Z) (duration : Q) :
  (forall l r, p (GPIO_output pin l, r) = true) ->
  (forall r, p (time_sleep duration, r) = true) ->
  sat (flash_led pin duration) (only p).
Proof.
  intros Hw Hs. unfold flash_led.
  apply sat_bind; [apply only_sequential | apply sat_do_only; auto | intros _].
  apply sat_bind; [apply only_sequential | apply sat_do_only; auto | intros _].
  apply sat_do_only; auto.
Qed.

Lemma flash_led_in_loop (pin : Z) (duration : Q) :
  pin = PIN_GREEN_LED \/ pin = PIN_RED_LED ->
  sat (flash_led pin duration) in_loop.
Proof.
  intro Hpin. apply flash_led_only; [|reflexivity].
  intros l r. destruct Hpin; subst; reflexivity.
Qed.

Lemma quiz_body_in_loop (fuel : nat) : sat (quiz_body fuel) in_loop.
Proof.
  apply quiz_body_sat.
  - apply in_loop_sequential.
  - auto.
  - intro s. apply sat_do. reflexivity.
  - intro p. apply sat_read_line. reflexivity.
  - intros pin Hpin. apply flash_led_in_loop, Hpin.
Qed.

(** *** Idle lines stay idle *)

Lemma keeps_idle_sequential : sequential keeps_idle.
Proof.
  split; [intros _ m Hm; exact Hm|].
  unfold keeps_idle. intros d1 d2 _ H1 H2 Hd m Hm.
  rewrite forallb_app in Hd. apply andb_true_iff in Hd as [Hd1 Hd2].
  rewrite medium_after_app. auto.
Qed.

Lemma flash_led_keeps_idle (pin : Z) (duration : Q) :
  pin = PIN_GREEN_LED \/ pin = PIN_RED_LED ->
  sat (flash_led pin duration) keeps_idle.
Proof.
  intros Hpin w. unfold flash_led, bind.
  destruct (do_run (GPIO_output pin LOW) w) as (r1 & w1 & E1 & T1 & F1 & _).
  rewrite E1.
  destruct r1 as [|s|e]; simpl in *; [ | contradiction | ].
  2:{ exists [(GPIO_output pin LOW, Raised e)]. split; [assumption|].
      intro Hd. discriminate Hd. }
  destruct (do_run (time_sleep duration) w1) as (r2 & w2 & E2 & T2 & F2 & _).
  rewrite E2.
  destruct r2 as [|s|e]; simpl in *; [ | contradiction | ].
  2:{ exists [(GPIO_output pin LOW, Done); (time_sleep duration, Raised e)].
      split; [rewrite T2, T1, <- app_assoc; reflexivity|].
      intro Hd. discriminate Hd. }
  destruct (do_run (GPIO_output pin HIGH) w2) as (r3 & w3 & E3 & T3 & F3 & _).
  rewrite E3. simpl.
  exists [(GPIO_output pin LOW, Done); (time_sleep duration, Done);
          (GPIO_output pin HIGH, r3)].
  split; [rewrite T3, T2, T1, <- !app_assoc; reflexivity|].
  destruct r3 as [|s|e]; simpl in *; [ | contradiction | intro Hd; discriminate Hd].
  intros _ m [Hg Hr].
  unfold lines_idle, medium_after, set_pin; simpl.
  destruct Hpin; subst pin; simpl; auto.
Qed.

Lemma quiz_body_keeps_idle (fuel : nat) : sat (quiz_body fuel) keeps_idle.
Proof.
  apply quiz_body_sat.
  - apply keeps_idle_sequential.
  - unfold keeps_idle. auto.
  - intro s. apply sat_do. intros r _ _ m Hm. destruct r; exact Hm.
  - intro p. apply sat_read_line. intros r _ m Hm. destruct r; exact Hm.
  - intros pin Hpin. apply flash_led_keeps_idle, Hpin.
Qed.

(** *** The outcome goes with the calls that raised *)







(** ** Termination

    Every pass through either loop uses up a line of input or a scheduled
    fault, so fuel beyond what is pending is never needed. *)

Lemma steady_ret {A} (a : A) : steady (ret a).
Proof. intro w. simpl. split; [discriminate | lia]. Qed.

Lemma steady_raise {A} (e : exn) : steady (@raise A e).
Proof. intro w. simpl. split; [discriminate | lia]. Qed.

Lemma steady_bind {A B} (m : M A) (k : A -> M B) :
  steady m -> (forall a, steady (k a)) -> steady (bind m k).
Proof.
  intros Hm Hk w. destruct (Hm w) as [Hd Hp]. unfold bind.
  destruct (m w) as [[a|e|] w1]; simpl in *.
  - destruct (Hk a w1). split; [assumption | lia].
  - split; [discriminate | assumption].
  - contradiction.
Qed.

Lemma steady_do (c : call) : steady (do c).
Proof.
  intro w. destruct (do_run c w) as (r & w' & E & _ & _ & Hp).
  rewrite E. simpl. split; [destruct r; discriminate | assumption].
Qed.

Lemma steady_try_except {A} (m : M A) (h : exn -> option (M A)) :
  steady m -> (forall e handler, h e = Some handler -> steady handler) ->
  steady (try_except m h).
Proof.
  intros Hm Hh w. destruct (Hm w) as [Hd Hp]. unfold try_except.
  destruct (m w) as [[a|e|] w1]; simpl in *; auto.
  destruct (h e) as [handler|] eqn:He; simpl; auto.
  destruct (Hh e handler He w1). split; [assumption | lia].
Qed.

Lemma steady_try_finally {A} (m : M A) (f : M unit) :
  steady m -> steady f -> steady (try_finally m f).
Proof.
  intros Hm Hf w. destruct (Hm w) as [Hd Hp]. unfold try_finally.
  destruct (m w) as [[a|e|] w1]; simpl in *; try contradiction;
    destruct (Hf w1) as [Hd2 Hp2];
    destruct (f w1) as [[[]|e2|] w2]; simpl in *; try contradiction;
    (split; [discriminate | lia]).
Qed.

Lemma flash_led_steady (pin : Z) (duration : Q) : steady (flash_led pin duration).
Proof.
  unfold flash_led. repeat (apply steady_bind; [apply steady_do | intros _]).
  apply steady_do.
Qed.

Lemma feedback_steady (num1 num2 user_answer : Z) :
  steady (feedback num1 num2 user_answer).
Proof.
  unfold feedback. destruct (user_answer =? num1 + num2);
    do 2 (apply steady_bind; [apply steady_do | intros _]);
    apply flash_led_steady.
Qed.

Lemma gpio_context_setup_steady : steady gpio_context_setup.
Proof.
  unfold gpio_context_setup.
  repeat (apply steady_bind; [apply steady_do | intros _]). apply steady_do.
Qed.

Lemma banner_steady : steady banner.
Proof.
  unfold banner.
  repeat (apply steady_bind; [apply steady_do | intros _]). apply steady_do.
Qed.

Lemma get_integer_input_attempt_pending (p : string) (w : World) :
  fst (get_integer_input_attempt p w) <> Diverge
  /\ (pending (snd (get_integer_input_attempt p w)) <= pending w)%nat
  /\ (forall r, fst (get_integer_input_attempt p w) = Ret r ->
                (pending (snd (get_integer_input_attempt p w)) < pending w)%nat).
Proof.
  unfold get_integer_input_attempt, try_except, bind.
  destruct (read_line_run p w)
    as (r & w1 & _ & Hp1 & [(s & _ & E1 & Hs) | (e & _ & E1 & Hs)]);
    rewrite E1.
  - destruct (Py.int s) as [n|]; simpl.
    + repeat split; [discriminate | lia | intros; lia].
    + destruct (do_run (print invalid_integer_message) w1)
        as (r2 & w2 & E2 & _ & _ & Hp2).
      rewrite E2. destruct r2; simpl;
        (repeat split; [discriminate | lia | intros; try discriminate; lia]).
  - destruct e; simpl;
      try (repeat split; [discriminate | lia | intros; discriminate]).
    + destruct (do_run (print stream_closed_message) w1)
        as (r2 & w2 & E2 & _ & _ & Hp2).
      rewrite E2. destruct r2; simpl;
        (repeat split; [discriminate | lia | intros; discriminate]).
    + destruct (do_run (print invalid_integer_message) w1)
        as (r2 & w2 & E2 & _ & _ & Hp2).
      assert (pending w1 < pending w)%nat by (apply Hs; discriminate).
      rewrite E2. destruct r2; simpl;
        (repeat split; [discriminate | lia | intros; try discriminate; lia]).
Qed.

Lemma get_integer_input_ends (fuel : nat) (p : string) (w : World) :
  (pending w < fuel)%nat ->
  fst (get_integer_input fuel p w) <> Diverge
  /\ (pending (snd (get_integer_input fuel p w)) <= pending w)%nat
  /\ (forall n, fst (get_integer_input fuel p w) = Ret n ->
                (pending (snd (get_integer_input fuel p w)) < pending w)%nat).
Proof.
  revert w. induction fuel as [|fuel IH]; intros w Hw; [lia|].
  simpl. unfold bind.
  destruct (get_integer_input_attempt_pending p w) as (Hd & Hp & Hr).
  destruct (get_integer_input_attempt p w) as [[[n|]|e|] w1]; simpl in *.
  - repeat split; [discriminate | lia | intros; eapply Hr; reflexivity].
  - specialize (Hr None eq_refl).
    destruct (IH w1) as (Hd2 & Hp2 & Hr2); [lia|].
    repeat split; [assumption | lia | intros n Hn; specialize (Hr2 n Hn); lia].
  - repeat split; [discriminate | lia | intros; discriminate].
  - contradiction.
Qed.

Lemma read_line_steady (p : string) : steady (read_line p).
Proof.
  intro w.
  destruct (read_line_run p w)
    as (r & w1 & _ & Hp & [(s & _ & E & _) | (e & _ & E & _)]);
    rewrite E; simpl; (split; [discriminate | assumption]).
Qed.

Lemma quiz_round_ends (fuel : nat) (w : World) :
  (pending w < fuel)%nat ->
  fst (quiz_round fuel w) <> Diverge
  /\ (pending (snd (quiz_round fuel w)) <= pending w)%nat
  /\ (fst (quiz_round fuel w) = Ret tt ->
      (pending (snd (quiz_round fuel w)) < pending w)%nat).
Proof.
  intro Hw. unfold quiz_round, bind.
  destruct (get_integer_input_ends fuel "Enter first number: " w Hw)
    as (D1 & P1 & R1).
  destruct (get_integer_input fuel "Enter first number: " w)
    as [[num1|e|] w1]; simpl in *;
    [ | repeat split; [discriminate | lia | discriminate] | contradiction].
  specialize (R1 num1 eq_refl).
  destruct (get_integer_input_ends fuel "Enter second number: " w1)
    as (D2 & P2 & _); [lia|].
  destruct (get_integer_input fuel "Enter second number: " w1)
    as [[num2|e|] w2]; simpl in *;
    [ | repeat split; [discriminate | lia | discriminate] | contradiction].
  destruct (get_integer_input_ends fuel (sum_prompt num1 num2) w2)
    as (D3 & P3 & _); [lia|].
  destruct (get_integer_input fuel (sum_prompt num1 num2) w2)
    as [[user_answer|e|] w3]; simpl in *;
    [ | repeat split; [discriminate | lia | discriminate] | contradiction].
  destruct (feedback_steady num1 num2 user_answer w3) as [D4 P4].
  repeat split; [assumption | lia | intros; lia].
Qed.

Lemma quiz_loop_ends (fuel : nat) (w : World) :
  (pending w < fuel)%nat ->
  fst (quiz_loop fuel w) <> Diverge
  /\ (pending (snd (quiz_loop fuel w)) <= pending w)%nat.
Proof.
  revert w. induction fuel as [|fuel IH]; intros w Hw; [lia|].
  cbn [quiz_loop]. unfold bind.
  destruct (quiz_round_ends (S fuel) w Hw) as (D1 & P1 & R1).
  destruct (quiz_round (S fuel) w) as [[[]|e|] w1]; cbn [fst snd] in *;
    [ | split; [discriminate | assumption] | contradiction].
  specialize (R1 eq_refl).
  destruct (steady_do (print "") w1) as [D2 P2].
  destruct (do (print "") w1) as [[[]|e|] w2]; cbn [fst snd] in *;
    [ | split; [discriminate | lia] | contradiction].
  destruct (read_line_steady "Try another? (y/n): " w2) as [D3 P3].
  destruct (read_line "Try another? (y/n): " w2) as [[again|e|] w3];
    cbn [fst snd] in *;
    [ | split; [discriminate | lia] | contradiction].
  destruct (negb (affirmative again));
    [cbn [ret fst snd]; split; [discriminate | lia]|].
  destruct (steady_do (print "") w3) as [D4 P4].
  destruct (do (print "") w3) as [[[]|e|] w4]; cbn [fst snd] in *;
    [ | split; [discriminate | lia] | contradiction].
  destruct (IH w4) as [D5 P5]; [lia|].
  split; [assumption | lia].
Qed.

Lemma quiz_body_ends (fuel : nat) (w : World) :
  (pending w < fuel)%nat ->
  fst (quiz_body fuel w) <> Diverge
  /\ (pending (snd (quiz_body fuel w)) <= pending w)%nat.
Proof.
  intro Hw. unfold quiz_body, try_except.
  destruct (quiz_loop_ends fuel w Hw) as [D1 P1].
  destruct (quiz_loop fuel w) as [[[]|e|] w1]; simpl in *;
    [ split; [discriminate | assumption] | | contradiction].
  destruct e; simpl; try (split; [discriminate | assumption]).
  destruct (steady_do (print goodbye_message) w1) as [D2 P2].
  split; [assumption | lia].
Qed.

Lemma gpio_context_quiz_body_ends (fuel : nat) (w : World) :
  (pending w < fuel)%nat ->
  fst (gpio_context (quiz_body fuel) w) <> Diverge
  /\ (pending (snd (gpio_context (quiz_body fuel) w)) <= pending w)%nat.
Proof.
  intro Hw. unfold gpio_context, try_finally, bind.
  destruct (gpio_context_setup_steady w) as [D1 P1].
  destruct (gpio_context_setup w) as [[[]|e|] w1]; simpl in D1, P1;
    [ | | contradiction].
  - destruct (quiz_body_ends fuel w1) as [D2 P2]; [lia|].
    destruct (quiz_body fuel w1) as [[[]|e|] w2]; simpl in D2, P2;
      try contradiction;
      destruct (steady_do GPIO_cleanup w2) as [D3 P3];
      destruct (do GPIO_cleanup w2) as [[[]|e3|] w3]; simpl in *;
      try contradiction; (split; [discriminate | lia]).
  - destruct (steady_do GPIO_cleanup w1) as [D3 P3];
      destruct (do GPIO_cleanup w1) as [[[]|e3|] w3]; simpl in *;
      try contradiction; (split; [discriminate | lia]).
Qed.

(** With more fuel than input lines and scheduled faults, the process
    ends with an exit status. *)
Lemma script_ends (fuel : nat) (w : World) :
  (pending w < fuel)%nat -> fst (script fuel w) <> None.
Proof.
  intro Hw. unfold script, main, run_quiz, bind.
  destruct (banner_steady w) as [D1 P1].
  destruct (banner w) as [[[]|e|] w1]; simpl in D1, P1;
    [ | destruct e; discriminate | contradiction].
  destruct (gpio_context_quiz_body_ends fuel w1) as [D2 P2]; [lia|].
  destruct (gpio_context (quiz_body fuel) w1) as [[[]|e|] w2]; simpl in *;
    [ discriminate | destruct e; discriminate | contradiction].
Qed.

(** ** Runs without faults *)

Lemma calm_S (n : nat) (fs : list (option exn)) :
  calm (S n) fs -> hd None fs = None /\ calm n (tl fs).
Proof.
  unfold calm. destruct fs as [|f fs]; simpl.
  - intros _. split; [reflexivity|]. rewrite firstn_nil. constructor.
  - intro H. inversion H; subst. auto.
Qed.




Lemma do_quiet (c : call) (w : World) :
  hd None (faults w) = None ->
  answer c w = (Done, stdin w) ->
  do c w = (Ret tt, mkWorld (stdin w) (tl (faults w)) (trace w ++ [(c, Done)])).
Proof.
  intros Hf Ha. unfold do, bind, perform. rewrite Hf, Ha. reflexivity.
Qed.






(** ** flash_led *)



Lemma untouched_pin (pin other : Z) (d : list event) (m : medium) :
  other <> pin ->
  forallb (touches_only pin) d = true ->
  medium_after d m other = m other.
Proof.
  intro Hne. revert m. induction d as [|[c r] d IH]; intros m Hd; [reflexivity|].
  simpl in Hd. apply andb_true_iff in Hd as [Hc Hd].
  unfold medium_after in *. simpl. rewrite IH by assumption.
  destruct c; try discriminate Hc; destruct r; try reflexivity.
  unfold touches_only in Hc. simpl in Hc. apply Z.eqb_eq in Hc. subst pin0.
  unfold set_pin. destruct (other =? pin) eqn:E; [|reflexivity].
  apply Z.eqb_eq in E. contradiction.
Qed.

(** C9. Whatever happens during [flash_led(pin, ...)] (it may be
    interrupted or fail at any call), the only pin it writes is [pin]:
    every other pin is in the state it was in before. *)
Theorem flash_led_leaves_other_pins
        (pin other : Z) (duration : Q) (w : World) (m0 : medium) :
  other <> pin ->
  exists d,
    trace (snd (flash_led pin duration w)) = (trace w ++ d)%list
    /\ forallb (touches_only pin) d = true
    /\ medium_after (trace (snd (flash_led pin duration w))) m0 other
       = medium_after (trace w) m0 other.
Proof.
  intro Hne.
  destruct (flash_led_only (touches_only pin) pin duration) with (w := w)
    as (d & Ht & Hd).
  - intros l r. unfold touches_only. simpl. apply Z.eqb_refl.
  - reflexivity.
  - exists d. split; [assumption|]. split; [exact Hd|].
    rewrite Ht, medium_after_app. apply (untouched_pin pin); assumption.
Qed.

Lemma flash_green_leaves_red :
  PIN_RED_LED <> PIN_GREEN_LED /\
  exists d,
    trace (snd (flash_led PIN_GREEN_LED LED_ON_DURATION
                          (session [] [None; Some KeyboardInterrupt])))
    = (trace (session [] [None; Some KeyboardInterrupt]) ++ d)%list
    /\ forallb (touches_only PIN_GREEN_LED) d = true
    /\ medium_after
         (trace (snd (flash_led PIN_GREEN_LED LED_ON_DURATION
                                (session [] [None; Some KeyboardInterrupt]))))
         (set_pin unconfigured PIN_RED_LED DEASSERTED) PIN_RED_LED
       = medium_after (trace (session [] [None; Some KeyboardInterrupt]))
           (set_pin unconfigured PIN_RED_LED DEASSERTED) PIN_RED_LED.
Proof.
  assert (Hne : PIN_RED_LED <> PIN_GREEN_LED) by (vm_compute; discriminate).
  split; [exact Hne|].
  exact (flash_led_leaves_other_pins PIN_GREEN_LED PIN_RED_LED LED_ON_DURATION
           (session [] [None; Some KeyboardInterrupt])
           (set_pin unconfigured PIN_RED_LED DEASSERTED) Hne).
Defined.

(** ** The feedback *)



(** ** get_integer_input *)





(** ** One round, from the prompts to the pulse *)






(** ** The continue prompt *)







(** ** The scope of gpio_context *)

Ltac run_do :=
  match goal with
  | |- context [do ?c ?w] =>
      let r := fresh "r" in
      let w' := fresh "w" in
      let E := fresh "E" in
      let T := fresh "T" in
      let F := fresh "F" in
      destruct (do_run c w) as (r & w' & E & T & F & _);
      rewrite E; destruct r as [| ? | ?]; cbn [reply_ended fits] in *;
      [ | contradiction | ]
  end.

Ltac trace_eq :=
  repeat match goal with
         | T : trace _ = _ |- _ => rewrite T; clear T
         end;
  rewrite <- ?app_assoc; reflexivity.

Lemma gpio_context_setup_run (w : World) :
  exists d w',
    trace w' = (trace w ++ d)%list
    /\ forallb (fun ev => negb (round_event ev)) d = true
    /\ initializations d = 1%nat
    /\ releases d = 0%nat
    /\ ((gpio_context_setup w = (Ret tt, w') /\ d = setup_events)
        \/ (exists e, gpio_context_setup w = (Raise e, w')
                      /\ forallb (fun ev => negb (hardware_fault ev)) d = false)).
Proof.
  unfold gpio_context_setup, bind.
  do 6 (run_do;
        [ | eexists; eexists; split; [trace_eq|];
            repeat (split; [reflexivity|]);
            right; eexists; split; reflexivity ]).
  eexists; eexists; split; [trace_eq|].
  repeat (split; [reflexivity|]). left. split; reflexivity.
Qed.

Lemma banner_run (w : World) :
  exists d,
    trace (snd (banner w)) = (trace w ++ d)%list
    /\ forallb (fun ev => negb (round_event ev)) d = true
    /\ initializations d = 0%nat
    /\ releases d = 0%nat.
Proof.
  unfold banner, bind.
  do 5 (run_do;
        [ | eexists; split; [cbn [snd]; trace_eq|];
            repeat split; reflexivity ]).
  eexists; split; [cbn [snd]; trace_eq|]. repeat split; reflexivity.
Qed.

Lemma releases_app (d1 d2 : list event) :
  releases (d1 ++ d2) = (releases d1 + releases d2)%nat.
Proof. unfold releases. rewrite filter_app, length_app. reflexivity. Qed.

Lemma initializations_app (d1 d2 : list event) :
  initializations (d1 ++ d2) = (initializations d1 + initializations d2)%nat.
Proof. unfold initializations. rewrite filter_app, length_app. reflexivity. Qed.

Lemma in_loop_no_release (d : list event) :
  forallb loop_event d = true -> releases d = 0%nat /\ initializations d = 0%nat.
Proof.
  induction d as [|[c r] d IH]; [split; reflexivity|].
  simpl. intro H. apply andb_true_iff in H as [Hc Hd].
  destruct (IH Hd) as [IH1 IH2].
  unfold releases, initializations in *.
  destruct c; try discriminate Hc; simpl; auto.
Qed.

(** C10. When a call of the set-up raises, [GPIO.cleanup()] is called all
    the same, once, right after the failed call; the body of the [with]
    statement is not run and the exception of the set-up propagates
    (unless the clean-up raises one of its own). *)
Theorem gpio_context_cleans_up_after_failed_setup
        {A : Type} (body : M A) (w w1 : World) (e : exn) :
  gpio_context_setup w = (Raise e, w1) ->
  exists r w' ds,
    gpio_context body w
    = (match r with Raised e' => Raise e' | _ => Raise e end, w')
    /\ trace w1 = (trace w ++ ds)%list
    /\ forallb (fun ev => negb (hardware_fault ev)) ds = false
    /\ trace w' = (trace w ++ ds ++ [(GPIO_cleanup, r)])%list
    /\ releases (ds ++ [(GPIO_cleanup, r)]) = 1%nat.
Proof.
  intro H.
  destruct (gpio_context_setup_run w) as (d & w2 & T & _ & _ & Hrel & Hcase).
  destruct Hcase as [[E _] | (e2 & E & Hf)]; rewrite H in E; inversion E; subst.
  unfold gpio_context, try_finally, bind. rewrite H.
  destruct (do_run GPIO_cleanup w2) as (r & w' & Ec & Tc & Fc & _).
  exists r, w', d. rewrite Ec.
  split; [destruct r; simpl in *; try contradiction; reflexivity|].
  split; [exact T|]. split; [exact Hf|].
  split; [rewrite Tc, T, app_assoc; reflexivity|].
  rewrite releases_app, Hrel. reflexivity.
Qed.

Lemma red_setup_fails_cleanup_runs :
  gpio_context_setup red_setup_fails
  = (Raise (OtherError "RuntimeError"), snd (gpio_context_setup red_setup_fails))
  /\ exists r w' ds,
      gpio_context (quiz_body 2) red_setup_fails
      = (match r with
         | Raised e' => Raise e'
         | _ => Raise (OtherError "RuntimeError")
         end, w')
      /\ trace (snd (gpio_context_setup red_setup_fails))
         = (trace red_setup_fails ++ ds)%list
      /\ forallb (fun ev => negb (hardware_fault ev)) ds = false
      /\ trace w' = (trace red_setup_fails ++ ds ++ [(GPIO_cleanup, r)])%list
      /\ releases (ds ++ [(GPIO_cleanup, r)]) = 1%nat.
Proof.
  split; [reflexivity|].
  exact (gpio_context_cleans_up_after_failed_setup (quiz_body 2) red_setup_fails
           (snd (gpio_context_setup red_setup_fails))
           (OtherError "RuntimeError") eq_refl).
Defined.

(** C7. When a call of the set-up raises, the run is over: the only call
    made afterwards is [GPIO.cleanup()], the set-up is not tried again,
    no prompt is shown and no LED is lit, and [run_quiz] raises the
    exception of the set-up (or the one of the clean-up, if that raises
    too). *)
Theorem failed_setup_is_fatal (fuel : nat) (w w0 w1 : World) (e : exn) :
  banner w = (Ret tt, w0) ->
  gpio_context_setup w0 = (Raise e, w1) ->
  exists r w' d,
    run_quiz fuel w
    = (match r with Raised e' => Raise e' | _ => Raise e end, w')
    /\ trace w' = (trace w1 ++ [(GPIO_cleanup, r)])%list
    /\ trace w' = (trace w ++ d)%list
    /\ forallb (fun ev => negb (round_event ev)) d = true
    /\ initializations d = 1%nat.
Proof.
  intros Hb Hs.
  destruct (banner_run w) as (db & Tb & Rb & Ib & _). rewrite Hb in Tb.
  destruct (gpio_context_setup_run w0) as (ds & w2 & Ts & Rs & Is & _ & Hcase).
  destruct Hcase as [[E _] | (e2 & E & _)]; rewrite Hs in E; inversion E; subst.
  destruct (do_run GPIO_cleanup w2) as (r & w' & Ec & Tc & Fc & _).
  exists r, w', (db ++ ds ++ [(GPIO_cleanup, r)])%list.
  unfold run_quiz, gpio_context, try_finally, bind. rewrite Hb, Hs, Ec.
  split; [destruct r; simpl in *; try contradiction; reflexivity|].
  split; [exact Tc|].
  split; [rewrite Tc, Ts; cbn [snd] in Tb; rewrite Tb, <- !app_assoc; reflexivity|].
  split.
  - rewrite !forallb_app, Rb, Rs. destruct r; reflexivity.
  - rewrite !initializations_app, Ib, Is. reflexivity.
Qed.

Lemma setup_failure_ends_the_run :
  banner setup_fails_in_run = (Ret tt, snd (banner setup_fails_in_run))
  /\ gpio_context_setup (snd (banner setup_fails_in_run))
     = (Raise (OtherError "RuntimeError"),
        snd (gpio_context_setup (snd (banner setup_fails_in_run))))
  /\ exists r w' d,
      run_quiz 5 setup_fails_in_run
      = (match r with
         | Raised e' => Raise e'
         | _ => Raise (OtherError "RuntimeError")
         end, w')
      /\ trace w'
         = (trace (snd (gpio_context_setup (snd (banner setup_fails_in_run))))
            ++ [(GPIO_cleanup, r)])%list
      /\ trace w' = (trace setup_fails_in_run ++ d)%list
      /\ forallb (fun ev => negb (round_event ev)) d = true
      /\ initializations d = 1%nat.
Proof.
  split; [reflexivity|]. split; [reflexivity|].
  exact (failed_setup_is_fatal 5 setup_fails_in_run
           (snd (banner setup_fails_in_run))
           (snd (gpio_context_setup (snd (banner setup_fails_in_run))))
           (OtherError "RuntimeError") eq_refl eq_refl).
Defined.

Lemma setup_events_idle (m : medium) : lines_idle (medium_after setup_events m).
Proof. split; reflexivity. Qed.

(** The [with] statement around the quiz, from any world with enough
    fuel: what ran inside, then the one call of [GPIO.cleanup()]. *)
Lemma scope_run (fuel : nat) (w : World) :
  (pending w < fuel)%nat ->
  exists o1 w1 r w' d,
    (gpio_context_setup ;; quiz_body fuel) w = (o1, w1)
    /\ o1 <> Diverge
    /\ fits GPIO_cleanup r
    /\ gpio_context (quiz_body fuel) w
       = (match r with Raised e => Raise e | _ => o1 end, w')
    /\ trace w1 = (trace w ++ d)%list
    /\ trace w' = (trace w1 ++ [(GPIO_cleanup, r)])%list
    /\ initializations d = 1%nat
    /\ releases d = 0%nat
    /\ (forallb (fun ev => negb (hardware_fault ev)) d = true ->
        forall m, lines_idle (medium_after d m)).
Proof.
  intro Hw.
  destruct (gpio_context_setup_run w) as (ds & ws & Ts & _ & Is & Rs & Hcase).
  destruct (gpio_context_setup_steady w) as [_ Ps].
  destruct Hcase as [[E Hds] | (e & E & Hf)]; rewrite E in Ps; cbn [snd] in Ps.
  - destruct (quiz_body_ends fuel ws) as [D2 _]; [lia|].
    destruct (quiz_body_in_loop fuel ws) as (db & Tb & Hb).
    destruct (quiz_body_keeps_idle fuel ws) as (db' & Tb' & Hk).
    rewrite Tb in Tb'. apply app_inv_head in Tb'. subst db'.
    destruct (in_loop_no_release db Hb) as [Rb Ib].
    destruct (quiz_body fuel ws) as [o1 w1] eqn:Eb. cbn [fst snd] in *.
    destruct (do_run GPIO_cleanup w1) as (r & w' & Ec & Tc & Fc & _).
    exists o1, w1, r, w', (ds ++ db)%list.
    split; [unfold bind; rewrite E; exact Eb|].
    split; [exact D2|]. split; [exact Fc|].
    split.
    { unfold gpio_context, try_finally, bind. rewrite E, Eb.
      destruct o1 as [[]|e1|]; try contradiction; rewrite Ec;
        destruct r; simpl in *; try contradiction; reflexivity. }
    split; [rewrite Tb, Ts, app_assoc; reflexivity|].
    split; [exact Tc|].
    split; [rewrite initializations_app, Is, Ib; reflexivity|].
    split; [rewrite releases_app, Rs, Rb; reflexivity|].
    intros Hd m. rewrite forallb_app in Hd. apply andb_true_iff in Hd as [_ Hd].
    rewrite medium_after_app. apply Hk; [exact Hd|].
    subst ds. apply setup_events_idle.
  - destruct (do_run GPIO_cleanup ws) as (r & w' & Ec & Tc & Fc & _).
    exists (Raise e), ws, r, w', ds.
    split; [unfold bind; rewrite E; reflexivity|].
    split; [discriminate|]. split; [exact Fc|].
    split.
    { unfold gpio_context, try_finally, bind. rewrite E, Ec.
      destruct r; simpl in *; try contradiction; reflexivity. }
    split; [exact Ts|]. split; [exact Tc|].
    split; [exact Is|]. split; [exact Rs|].
    intro Hd. rewrite Hd in Hf. discriminate.
Qed.




Lemma medium_after_cleanup (d : list event) (m : medium) (pin : Z) :
  medium_after (d ++ [(GPIO_cleanup, Done)]) m pin = Unconfigured.
Proof. rewrite medium_after_app. reflexivity. Qed.

(** C2 (as amended). Both LED lines are deasserted (driven HIGH) as soon
    as the set-up has completed.  They are deasserted again when
    [GPIO.cleanup()] is about to run, on every exit path on which no GPIO
    call and no sleep raised (a pulse cut short between its two writes
    leaves its line asserted until the clean-up).  After a clean-up that
    succeeded no line is asserted: both pins are unconfigured. *)
Theorem lines_idle_at_both_ends_of_scope (fuel : nat) (w : World) :
  (pending w < fuel)%nat ->
  (forall w0, gpio_context_setup w = (Ret tt, w0) -> lines_idle (medium_of w0))
  /\ exists o1 w1 r w' d,
      (gpio_context_setup ;; quiz_body fuel) w = (o1, w1)
      /\ o1 <> Diverge
      /\ trace w1 = (trace w ++ d)%list
      /\ snd (gpio_context (quiz_body fuel) w) = w'
      /\ trace w' = (trace w1 ++ [(GPIO_cleanup, r)])%list
      /\ (forallb (fun ev => negb (hardware_fault ev)) d = true ->
          lines_idle (medium_of w1))
      /\ (r = Done ->
          medium_of w' PIN_GREEN_LED = Unconfigured
          /\ medium_of w' PIN_RED_LED = Unconfigured).
Proof.
  intro Hw. split.
  - intros w0 E.
    destruct (gpio_context_setup_run w) as (ds & ws & Ts & _ & _ & _ & Hcase).
    destruct Hcase as [[E' Hds] | (e & E' & _)]; rewrite E in E';
      inversion E'; subst.
    unfold medium_of. rewrite Ts, medium_after_app. apply setup_events_idle.
  - destruct (scope_run fuel w Hw)
      as (o1 & w1 & r & w' & d & E1 & D1 & _ & Eg & T1 & T2 & _ & _ & Hidle).
    exists o1, w1, r, w', d.
    split; [exact E1|]. split; [exact D1|]. split; [exact T1|].
    split; [rewrite Eg; reflexivity|]. split; [exact T2|].
    split.
    + intro Hd. unfold medium_of. rewrite T1, medium_after_app.
      apply Hidle, Hd.
    + intros ->. unfold medium_of. rewrite T2.
      split; apply medium_after_cleanup.
Qed.

Lemma lines_idle_when_user_declines :
  (pending (session ["3"; "4"; "7"; "n"] []) < 5)%nat
  /\ (forall w0,
        gpio_context_setup (session ["3"; "4"; "7"; "n"] []) = (Ret tt, w0) ->
        lines_idle (medium_of w0))
  /\ exists o1 w1 r w' d,
      (gpio_context_setup ;; quiz_body 5) (session ["3"; "4"; "7"; "n"] [])
      = (o1, w1)
      /\ o1 <> Diverge
      /\ trace w1 = (trace (session ["3"; "4"; "7"; "n"] []) ++ d)%list
      /\ snd (gpio_context (quiz_body 5) (session ["3"; "4"; "7"; "n"] [])) = w'
      /\ trace w' = (trace w1 ++ [(GPIO_cleanup, r)])%list
      /\ (forallb (fun ev => negb (hardware_fault ev)) d = true ->
          lines_idle (medium_of w1))
      /\ (r = Done ->
          medium_of w' PIN_GREEN_LED = Unconfigured
          /\ medium_of w' PIN_RED_LED = Unconfigured).
Proof.
  assert (H : (pending (session ["3"; "4"; "7"; "n"] []) < 5)%nat)
    by (vm_compute; lia).
  split; [exact H|].
  exact (lines_idle_at_both_ends_of_scope 5 (session ["3"; "4"; "7"; "n"] []) H).
Defined.

(** An interrupt during the sleep of a pulse: when the clean-up is called
    the green line is still asserted. *)
Lemma interrupted_pulse_is_asserted_at_release :
  last (trace (snd (gpio_context (quiz_body 18) interrupted_mid_pulse)))
       (print "", Done)
  = (GPIO_cleanup, Done)
  /\ raises (removelast
               (trace (snd (gpio_context (quiz_body 18) interrupted_mid_pulse))))
     = [(time_sleep LED_ON_DURATION, KeyboardInterrupt)]
  /\ medium_after
       (removelast
          (trace (snd (gpio_context (quiz_body 18) interrupted_mid_pulse))))
       unconfigured PIN_GREEN_LED
     = ASSERTED.
Proof. repeat split; reflexivity. Qed.

(** ** The exit status *)










(** ** Sample runs *)

Lemma int_samples :
  Py.int "7" = Some 7 /\ Py.int " -40 " = Some (-40) /\ Py.int "+007" = Some 7
  /\ Py.int "1_000" = Some 1000 /\ Py.int "abc" = None /\ Py.int "" = None
  /\ Py.int "3.5" = None /\ Py.int "1__0" = None /\ Py.int "- 7" = None.
Proof. repeat split; reflexivity. Qed.

Lemma affirmative_samples :
  affirmative "y" = true /\ affirmative " Y " = true
  /\ affirmative "n" = false /\ affirmative "yes" = false
  /\ affirmative "" = false.
Proof. repeat split; reflexivity. Qed.

(** 3 + 4 = 7, then "n": one green pulse, status 0. *)
Lemma run_3_4_7_n :
  fst (script 5 (session ["3"; "4"; "7"; "n"] [])) = Some 0
  /\ pulsed (trace (snd (script 5 (session ["3"; "4"; "7"; "n"] []))))
     = [PIN_GREEN_LED].
Proof. split; reflexivity. Qed.

(** 3 + 4 = 8, "y", 2 + 2 = 5, "n": two red pulses, status 0. *)
Lemma run_two_wrong_answers :
  fst (script 9 (session ["3"; "4"; "8"; "y"; "2"; "2"; "5"; "n"] [])) = Some 0
  /\ pulsed (trace (snd (script 9
                (session ["3"; "4"; "8"; "y"; "2"; "2"; "5"; "n"] []))))
     = [PIN_RED_LED; PIN_RED_LED].
Proof. split; reflexivity. Qed.

(** The input is closed at the first prompt: no pulse, status 1, and the
    clean-up is the last call. *)
Lemma run_closed_stream :
  fst (script 1 (session [] [])) = Some 1
  /\ pulsed (trace (snd (script 1 (session [] [])))) = []
  /\ last (trace (snd (script 1 (session [] [])))) (print "", Done)
     = (GPIO_cleanup, Done).
Proof. repeat split; reflexivity. Qed.

(** ** Edge cases of the pulse and of the continue prompt *)



Lemma read_line_closed (p : string) (w : World) :
  hd None (faults w) = None ->
  stdin w = [] ->
  read_line p w
  = (Raise EOFError,
     mkWorld [] (tl (faults w)) (trace w ++ [(input p, Raised EOFError)])).
Proof.
  intros Hf Hs. unfold read_line, bind, perform. rewrite Hf. simpl.
  rewrite Hs. reflexivity.
Qed.

(** X4. The input ends at the continue prompt, after a completed round:
    this [input] is not guarded, so [EOFError] itself leaves [run_quiz]
    (it is not the [sys.exit(1)] of the number prompts and the "Input
    stream closed" message is not printed); the clean-up still runs and
    the process ends with status 1. *)
Theorem end_of_input_at_continue_prompt (fuel : nat) (w w1 : World) :
  (banner ;; gpio_context_setup ;; quiz_round (S fuel)) w = (Ret tt, w1) ->
  stdin w1 = [] ->
  calm 3 (faults w1) ->
  run_quiz (S fuel) w
  = (Raise EOFError,
     mkWorld [] (skipn 3 (faults w1))
       (trace w1 ++ [(print "", Done);
                     (input "Try another? (y/n): ", Raised EOFError);
                     (GPIO_cleanup, Done)]))
  /\ fst (script (S fuel) w) = Some 1.
Proof.
  intros H Hs Hc.
  apply calm_S in Hc as [H1 Hc]. apply calm_S in Hc as [H2 Hc].
  apply calm_S in Hc as [H3 _].
  unfold bind in H.
  destruct (banner w) as [[[]|e|] wb] eqn:Eb; try discriminate H.
  destruct (gpio_context_setup wb) as [[[]|e|] w0] eqn:Es; try discriminate H.
  assert (E : run_quiz (S fuel) w
              = (Raise EOFError,
                 mkWorld [] (skipn 3 (faults w1))
                   (trace w1 ++ [(print "", Done);
                                 (input "Try another? (y/n): ", Raised EOFError);
                                 (GPIO_cleanup, Done)]))).
  { unfold run_quiz, gpio_context, try_finally, quiz_body, try_except.
    cbn [quiz_loop]. unfold bind. rewrite Eb, Es, H.
    rewrite do_quiet; [| exact H1 | reflexivity].
    rewrite read_line_closed; [| exact H2 | exact Hs].
    rewrite do_quiet; [| exact H3 | reflexivity].
    cbn [stdin faults trace]. rewrite <- !app_assoc.
    destruct (faults w1) as [|f1 [|f2 [|f3 fs]]]; reflexivity. }
  split; [exact E|].
  unfold script, main, bind. rewrite E. reflexivity.
Qed.

Lemma input_ends_after_3_4_7 :
  (banner ;; gpio_context_setup ;; quiz_round 1) (session ["3"; "4"; "7"] [])
  = (Ret tt,
     snd ((banner ;; gpio_context_setup ;; quiz_round 1)
            (session ["3"; "4"; "7"] [])))
  /\ stdin (snd ((banner ;; gpio_context_setup ;; quiz_round 1)
                   (session ["3"; "4"; "7"] []))) = []
  /\ calm 3 (faults (snd ((banner ;; gpio_context_setup ;; quiz_round 1)
                            (session ["3"; "4"; "7"] []))))
  /\ run_quiz 1 (session ["3"; "4"; "7"] [])
     = (Raise EOFError,
        mkWorld []
          (skipn 3 (faults (snd ((banner ;; gpio_context_setup ;; quiz_round 1)
                                   (session ["3"; "4"; "7"] [])))))
          (trace (snd ((banner ;; gpio_context_setup ;; quiz_round 1)
                         (session ["3"; "4"; "7"] [])))
           ++ [(print "", Done);
               (input "Try another? (y/n): ", Raised EOFError);
               (GPIO_cleanup, Done)]))
  /\ fst (script 1 (session ["3"; "4"; "7"] [])) = Some 1.
Proof.
  assert (Hr : (banner ;; gpio_context_setup ;; quiz_round 1)
                 (session ["3"; "4"; "7"] [])
               = (Ret tt,
                  snd ((banner ;; gpio_context_setup ;; quiz_round 1)
                         (session ["3"; "4"; "7"] []))))
    by (vm_compute; reflexivity).
  assert (Hs : stdin (snd ((banner ;; gpio_context_setup ;; quiz_round 1)
                             (session ["3"; "4"; "7"] []))) = [])
    by (vm_compute; reflexivity).
  assert (Hc : calm 3 (faults (snd ((banner ;; gpio_context_setup ;; quiz_round 1)
                                      (session ["3"; "4"; "7"] [])))))
    by (vm_compute; constructor).
  split; [exact Hr|]. split; [exact Hs|]. split; [exact Hc|].
  exact (end_of_input_at_continue_prompt 0 (session ["3"; "4"; "7"] [])
           (snd ((banner ;; gpio_context_setup ;; quiz_round 1)
                   (session ["3"; "4"; "7"] [])))
           Hr Hs Hc).
Defined.



(** ** What get_integer_input hands back *)





(** ** int(str(n)) *)












(** ** The discipline of the hardware calls *)

Lemma stepwise_app (ok : medium -> event -> bool) (m : medium)
      (d1 d2 : list event) :
  stepwise ok m (d1 ++ d2)
  = stepwise ok m d1 && stepwise ok (medium_after d1 m) d2.
Proof.
  revert m. induction d1 as [|ev d1 IH]; intro m; [reflexivity|].
  cbn [app stepwise]. rewrite IH, andb_assoc. reflexivity.
Qed.

Lemma stepwise_disciplined (m : medium) (d : list event) :
  stepwise disciplined m d = true ->
  stepwise one_at_a_time m d = true /\ stepwise in_protocol m d = true.
Proof.
  revert m. induction d as [|ev d IH]; intro m; [split; reflexivity|].
  cbn [stepwise]. unfold disciplined at 1. intro H.
  apply andb_true_iff in H as [H Hd]. apply andb_true_iff in H as [H1 H2].
  destruct (IH _ Hd) as [IH1 IH2]. rewrite H1, H2, IH1, IH2. split; reflexivity.
Qed.

Lemma idle_not_both_on (m : medium) : lines_idle m -> both_on m = false.
Proof. intros [Hg Hr]. unfold both_on. rewrite Hg. reflexivity. Qed.

Lemma apply_io_event (m : medium) (ev : event) :
  io_event ev = true -> apply_event m ev = m.
Proof.
  destruct ev as [c r]. destruct c; try discriminate; destruct r; reflexivity.
Qed.

Lemma io_events_disciplined (d : list event) (m : medium) :
  forallb io_event d = true ->
  both_on m = false ->
  stepwise disciplined m d = true /\ medium_after d m = m.
Proof.
  induction d as [|ev d IH]; intros Hd Hm; [split; reflexivity|].
  cbn [forallb] in Hd. apply andb_true_iff in Hd as [He Hd].
  destruct (IH Hd Hm) as [IH1 IH2].
  unfold medium_after in *. cbn [stepwise fold_left].
  rewrite (apply_io_event m ev He), IH1, IH2.
  split; [|reflexivity].
  unfold disciplined, one_at_a_time. rewrite (apply_io_event m ev He), Hm.
  destruct ev as [c r]. destruct c; try discriminate He; reflexivity.
Qed.

Lemma io_events_orderly (d : list event) (o : outcome unit) :
  forallb io_event d = true -> orderly d o.
Proof.
  intros Hd m Hm.
  destruct (io_events_disciplined d m Hd (idle_not_both_on m Hm)) as [H1 H2].
  rewrite H2. split; [exact H1|].
  split; [apply idle_not_both_on, Hm | intros _; exact Hm].
Qed.

Lemma orderly_sequential : sequential orderly.
Proof.
  split.
  - intros m Hm. split; [reflexivity|].
    split; [apply idle_not_both_on, Hm | intros _; exact Hm].
  - intros d1 d2 o H1 H2 m Hm.
    destruct (H1 m Hm) as (S1 & _ & I1). specialize (I1 eq_refl).
    destruct (H2 _ I1) as (S2 & B2 & I2).
    rewrite stepwise_app, medium_after_app, S1, S2. auto.
Qed.

Lemma sat_weaken {A} (m : M A) (Phi Psi : list event -> outcome unit -> Prop) :
  (forall d o, Phi d o -> Psi d o) -> sat m Phi -> sat m Psi.
Proof.
  intros H Hm w. destruct (Hm w) as (d & T & P). exists d. auto.
Qed.

Lemma get_integer_input_attempt_orderly (p : string) :
  sat (get_integer_input_attempt p) orderly.
Proof.
  apply (sat_weaken _ (only io_event)); [intros d o; apply io_events_orderly|].
  apply get_integer_input_attempt_sat.
  - apply only_sequential.
  - auto.
  - intro s. apply sat_do_only. reflexivity.
  - intro q. apply sat_read_line. reflexivity.
Qed.

Lemma flash_led_orderly (pin : Z) :
  pin = PIN_GREEN_LED \/ pin = PIN_RED_LED ->
  sat (flash_led pin LED_ON_DURATION) orderly.
Proof.
  intros Hpin w. unfold flash_led, bind.
  destruct (do_run (GPIO_output pin LOW) w) as (r1 & w1 & E1 & T1 & F1 & _).
  rewrite E1.
  destruct r1 as [|s|e]; cbn [reply_ended fits] in *; [ | contradiction | ].
  2:{ exists [(GPIO_output pin LOW, Raised e)]. split; [exact T1|].
      intros m [Hg Hr]. unfold medium_after, disciplined, one_at_a_time,
        in_protocol, both_on, led_pin, lines_idle, DEASSERTED in *.
      destruct Hpin; subst pin; cbn; rewrite ?Hg, ?Hr; cbn;
        repeat split; try reflexivity; discriminate. }
  destruct (do_run (time_sleep LED_ON_DURATION) w1)
    as (r2 & w2 & E2 & T2 & F2 & _).
  rewrite E2.
  destruct r2 as [|s|e]; cbn [reply_ended fits] in *; [ | contradiction | ].
  2:{ exists [(GPIO_output pin LOW, Done);
              (time_sleep LED_ON_DURATION, Raised e)].
      split; [cbn [snd]; rewrite T2, T1, <- app_assoc; reflexivity|].
      intros m [Hg Hr]. unfold medium_after, disciplined, one_at_a_time,
        in_protocol, both_on, led_on, led_pin, set_pin, lines_idle,
        DEASSERTED in *.
      destruct Hpin; subst pin; cbn; rewrite ?Hg, ?Hr; cbn;
        repeat split; try reflexivity; discriminate. }
  destruct (do_run (GPIO_output pin HIGH) w2) as (r3 & w3 & E3 & T3 & F3 & _).
  rewrite E3.
  exists [(GPIO_output pin LOW, Done); (time_sleep LED_ON_DURATION, Done);
          (GPIO_output pin HIGH, r3)].
  split; [cbn [snd]; rewrite T3, T2, T1, <- !app_assoc; reflexivity|].
  intros m [Hg Hr]. unfold medium_after, disciplined, one_at_a_time,
    in_protocol, both_on, led_on, led_pin, set_pin, lines_idle,
    DEASSERTED in *.
  destruct r3 as [|s|e]; cbn [fits] in *; try contradiction;
    destruct Hpin; subst pin; cbn; rewrite ?Hg, ?Hr; cbn;
    repeat split; try reflexivity; discriminate.
Qed.

Lemma single_io_orderly (c : call) (r : reply) :
  io_event (c, r) = true -> orderly [(c, r)] (reply_ended r).
Proof.
  intro H. apply io_events_orderly. cbn [forallb]. rewrite H. reflexivity.
Qed.

Lemma quiz_loop_orderly (fuel : nat) : sat (quiz_loop fuel) orderly.
Proof.
  apply quiz_loop_sat.
  - apply orderly_sequential.
  - apply io_events_orderly. reflexivity.
  - intro s. apply sat_do. intros r _. apply single_io_orderly. reflexivity.
  - intro q. apply sat_read_line. intro r. apply single_io_orderly. reflexivity.
  - apply get_integer_input_attempt_orderly.
  - apply flash_led_orderly.
Qed.

(** The body of the [with] statement, from idle lines. *)
Lemma quiz_body_disciplined (fuel : nat) (w : World) :
  exists d,
    trace (snd (quiz_body fuel w)) = (trace w ++ d)%list
    /\ forall m, lines_idle m ->
                 stepwise disciplined m d = true
                 /\ both_on (medium_after d m) = false.
Proof.
  destruct (quiz_loop_orderly fuel w) as (d1 & T1 & H1).
  unfold quiz_body, try_except.
  destruct (quiz_loop fuel w) as [[[]|e|] w1]; cbn [fst snd ended] in *;
    try (exists d1; split; [exact T1|];
         intros m Hm; destruct (H1 m Hm) as (S1 & B1 & _); auto; fail).
  destruct e;
    try (exists d1; split; [exact T1|];
         intros m Hm; destruct (H1 m Hm) as (S1 & B1 & _); auto; fail).
  destruct (do_run (print goodbye_message) w1) as (r & w2 & E & T & _).
  rewrite E. exists (d1 ++ [(print goodbye_message, r)])%list.
  split; [cbn [snd]; rewrite T, T1, app_assoc; reflexivity|].
  intros m Hm. destruct (H1 m Hm) as (S1 & B1 & _).
  destruct (io_events_disciplined [(print goodbye_message, r)]
              (medium_after d1 m) eq_refl B1) as [S2 M2].
  rewrite stepwise_app, medium_after_app, S1, S2, M2. auto.
Qed.

Lemma gpio_context_setup_disciplined (w : World) :
  exists d w',
    trace w' = (trace w ++ d)%list
    /\ stepwise disciplined unconfigured d = true
    /\ both_on (medium_after d unconfigured) = false
    /\ ((gpio_context_setup w = (Ret tt, w')
         /\ lines_idle (medium_after d unconfigured))
        \/ exists e, gpio_context_setup w = (Raise e, w')).
Proof.
  unfold gpio_context_setup, bind.
  do 6 (run_do;
        [ | eexists; eexists; split; [trace_eq|];
            split; [reflexivity|]; split; [reflexivity|];
            right; eexists; reflexivity ]).
  eexists; eexists; split; [trace_eq|].
  split; [reflexivity|]. split; [reflexivity|].
  left. split; [reflexivity | split; reflexivity].
Qed.

Lemma cleanup_disciplined (m : medium) (r : reply) :
  both_on m = false ->
  fits GPIO_cleanup r ->
  stepwise disciplined m [(GPIO_cleanup, r)] = true.
Proof.
  intros Hm Hf. cbn [stepwise]. unfold disciplined, one_at_a_time.
  destruct r; cbn in *; try contradiction; rewrite ?Hm; reflexivity.
Qed.

(** The [with] statement, entered with an unconfigured medium. *)
Lemma scope_disciplined (fuel : nat) (w : World) :
  exists d,
    trace (snd (gpio_context (quiz_body fuel) w)) = (trace w ++ d)%list
    /\ stepwise disciplined unconfigured d = true.
Proof.
  destruct (gpio_context_setup_disciplined w)
    as (ds & ws & Ts & Ss & Bs & [[Es Is] | [e Es]]);
    unfold gpio_context, try_finally, bind; rewrite Es.
  - destruct (quiz_body_disciplined fuel ws) as (db & Tb & Hb).
    destruct (Hb _ Is) as [Sb Bb].
    destruct (quiz_body fuel ws) as [[[]|e|] wb]; cbn [snd] in *.
    + destruct (do_run GPIO_cleanup wb) as (r & w' & Ec & Tc & Fc & _).
      rewrite Ec. exists (ds ++ db ++ [(GPIO_cleanup, r)])%list.
      split; [destruct r; cbn; rewrite Tc, Tb, Ts, <- !app_assoc; reflexivity|].
      rewrite !stepwise_app, Ss, Sb, <- medium_after_app.
      rewrite cleanup_disciplined; [reflexivity | | exact Fc].
      rewrite medium_after_app. exact Bb.
    + destruct (do_run GPIO_cleanup wb) as (r & w' & Ec & Tc & Fc & _).
      rewrite Ec. exists (ds ++ db ++ [(GPIO_cleanup, r)])%list.
      split; [destruct r; cbn; rewrite Tc, Tb, Ts, <- !app_assoc; reflexivity|].
      rewrite !stepwise_app, Ss, Sb, <- medium_after_app.
      rewrite cleanup_disciplined; [reflexivity | | exact Fc].
      rewrite medium_after_app. exact Bb.
    + exists (ds ++ db)%list.
      split; [cbn; rewrite Tb, Ts, app_assoc; reflexivity|].
      rewrite stepwise_app, Ss, Sb. reflexivity.
  - destruct (do_run GPIO_cleanup ws) as (r & w' & Ec & Tc & Fc & _).
    rewrite Ec. exists (ds ++ [(GPIO_cleanup, r)])%list.
    split; [destruct r; cbn; rewrite Tc, Ts, <- !app_assoc; reflexivity|].
    rewrite stepwise_app, Ss. apply cleanup_disciplined; assumption.
Qed.

Lemma banner_io (w : World) :
  exists d,
    trace (snd (banner w)) = (trace w ++ d)%list /\ forallb io_event d = true.
Proof.
  assert (H : sat banner (only io_event)).
  { unfold banner.
    repeat (apply sat_bind;
            [apply only_sequential | apply sat_do_only; reflexivity | intros _]).
    apply sat_do_only; reflexivity. }
  destruct (H w) as (d & T & Hd). exists d. auto.
Qed.

(** A whole run, from the start of the process. *)
Lemma run_quiz_disciplined
      (fuel : nat) (lines : list string) (fs : list (option exn)) :
  stepwise disciplined unconfigured
           (trace (snd (run_quiz fuel (session lines fs)))) = true.
Proof.
  unfold run_quiz, bind.
  destruct (banner_io (session lines fs)) as (db & Tb & Hb).
  destruct (io_events_disciplined db unconfigured Hb eq_refl) as [Sb Mb].
  destruct (banner (session lines fs)) as [[[]|e|] w1]; cbn [snd] in *;
    try (rewrite Tb; exact Sb).
  destruct (scope_disciplined fuel w1) as (d & T & Sd).
  rewrite T, Tb. cbn [session trace app].
  rewrite stepwise_app, Sb, Mb, Sd. reflexivity.
Qed.

(** X2. At no moment of any run, whatever is typed and whichever call
    fails or is interrupted, are both LEDs lit: after each call at most
    one of the two lines is asserted. *)
Theorem never_both_leds_on
        (fuel : nat) (lines : list string) (fs : list (option exn)) :
  stepwise one_at_a_time unconfigured
           (trace (snd (run_quiz fuel (session lines fs)))) = true.
Proof.
  apply (stepwise_disciplined unconfigured), run_quiz_disciplined.
Qed.

(** X3. In any run, whatever is typed and whichever call fails: only
    pins 33 and 35 are ever set up or written; a pin is written only
    after it was set up and before the clean-up; and the program sleeps
    only for [LED_ON_DURATION] and only while a LED is lit. *)
Theorem hardware_calls_stay_in_protocol
        (fuel : nat) (lines : list string) (fs : list (option exn)) :
  stepwise in_protocol unconfigured
           (trace (snd (run_quiz fuel (session lines fs)))) = true.
Proof.
  apply (stepwise_disciplined unconfigured), run_quiz_disciplined.
Qed.

(** ** Simulation mode: MockGPIO in place of RPi.GPIO *)

Lemma on_hardware_quiz_loop (fuel : nat) :
  quiz_loop_on RPi_GPIO fuel = quiz_loop fuel.
Proof.
  induction fuel as [|fuel IH]; [reflexivity|].
  cbn [quiz_loop_on quiz_loop]. rewrite IH. reflexivity.
Qed.

(** Over [RPi.GPIO] the program is the one verified above. *)
Lemma on_hardware_run_quiz (fuel : nat) :
  run_quiz_on RPi_GPIO fuel = run_quiz fuel.
Proof.
  unfold run_quiz_on, run_quiz, quiz_body_on, quiz_body.
  rewrite on_hardware_quiz_loop. reflexivity.
Qed.

Lemma simulated_app (w : World) (rest : list string) (d : list event) :
  simulated (mkWorld rest [] (trace w ++ d))
  = mkWorld rest [] (trace (simulated w) ++ flat_map sim_event d).
Proof. unfold simulated. cbn. rewrite flat_map_app. reflexivity. Qed.

Lemma mirrors_ret {A} (a : A) : mirrors (ret a) (ret a).
Proof. intros w Hw. split; [reflexivity | exact Hw]. Qed.

Lemma mirrors_raise {A} (e : exn) : mirrors (@raise A e) (raise e).
Proof. intros w Hw. split; [reflexivity | exact Hw]. Qed.

Lemma mirrors_diverge {A} : mirrors (@diverge A) diverge.
Proof. intros w Hw. split; [reflexivity | exact Hw]. Qed.

Lemma mirrors_bind {A B} (m m' : M A) (k k' : A -> M B) :
  mirrors m m' -> (forall a, mirrors (k a) (k' a)) ->
  mirrors (bind m k) (bind m' k').
Proof.
  intros Hm Hk w Hw. destruct (Hm w Hw) as [E F]. unfold bind. rewrite E.
  destruct (m w) as [[a|e|] w1]; cbn [fst snd] in *; auto.
  apply Hk, F.
Qed.

Lemma mirrors_try_except {A} (m m' : M A) (h h' : exn -> option (M A)) :
  mirrors m m' ->
  (forall e, match h e, h' e with
             | Some x, Some y => mirrors x y
             | None, None => True
             | _, _ => False
             end) ->
  mirrors (try_except m h) (try_except m' h').
Proof.
  intros Hm Hh w Hw. destruct (Hm w Hw) as [E F]. unfold try_except. rewrite E.
  destruct (m w) as [[a|e|] w1]; cbn [fst snd] in *; auto.
  specialize (Hh e). destruct (h e), (h' e); try contradiction; auto.
Qed.

Lemma mirrors_try_finally {A} (m m' : M A) (f f' : M unit) :
  mirrors m m' -> mirrors f f' ->
  mirrors (try_finally m f) (try_finally m' f').
Proof.
  intros Hm Hf w Hw. destruct (Hm w Hw) as [E F]. unfold try_finally.
  rewrite E.
  destruct (m w) as [[a|e|] w1]; cbn [fst snd] in *; auto;
    destruct (Hf w1 F) as [E2 F2]; rewrite E2;
    destruct (f w1) as [[[]|e2|] w2]; cbn [fst snd] in *; auto.
Qed.

(** A call that is not a GPIO call is the same call in simulation. *)
Lemma mirrors_perform (c : call) :
  is_gpio (c, Done) = false -> mirrors (perform c) (perform c).
Proof.
  intros Hc w Hw. unfold perform.
  replace (faults (simulated w)) with (faults w) by reflexivity.
  rewrite Hw. cbn [hd tl].
  assert (Ha : answer c (simulated w) = answer c w)
    by (destruct c; reflexivity).
  rewrite Ha. destruct (answer c w) as [r rest].
  assert (Hs : sim_event (c, r) = [(c, r)])
    by (destruct c; try discriminate Hc; reflexivity).
  cbn [fst snd faults]. split; [|reflexivity].
  unfold simulated; cbn [stdin faults trace].
  rewrite flat_map_app. cbn [flat_map]. rewrite Hs, app_nil_r. reflexivity.
Qed.

Lemma mirrors_do (c : call) :
  is_gpio (c, Done) = false -> mirrors (do c) (do c).
Proof.
  intro Hc. unfold do.
  apply mirrors_bind; [apply mirrors_perform, Hc | intros _; apply mirrors_ret].
Qed.

Lemma mirrors_read_line (p : string) : mirrors (read_line p) (read_line p).
Proof.
  unfold read_line.
  apply mirrors_bind; [apply mirrors_perform; reflexivity|].
  intros []; apply mirrors_ret.
Qed.

(** A GPIO call against the print that stands for it. *)
Lemma mirrors_gpio (c : call) (text : string) :
  (forall r, sim_event (c, r) = [(print text, r)]) ->
  is_gpio (c, Done) = true ->
  mirrors (do c) (do (print text)).
Proof.
  intros Hs Hc w Hw. unfold do, bind, perform, ret.
  cbn [simulated faults stdin trace]. rewrite Hw. cbn [hd tl].
  assert (Ha : answer c w = (Done, stdin w))
    by (destruct c; try discriminate Hc; reflexivity).
  rewrite Ha. cbn [answer reply_outcome fst snd faults].
  split; [|reflexivity].
  unfold simulated; cbn [stdin faults trace].
  rewrite flat_map_app. cbn [flat_map]. rewrite Hs, app_nil_r. reflexivity.
Qed.

Lemma mirrors_setwarnings (flag : bool) :
  mirrors (do (GPIO_setwarnings flag)) (MockGPIO.setwarnings flag).
Proof.
  intros w Hw. unfold do, bind, perform, MockGPIO.setwarnings, ret.
  rewrite Hw. cbn [hd tl answer reply_outcome fst snd faults].
  split; [|reflexivity].
  unfold simulated; cbn [stdin faults trace].
  rewrite flat_map_app, Hw. cbn [flat_map]. rewrite !app_nil_r. reflexivity.
Qed.

Lemma mirrors_output (pin : Z) (l : level) :
  mirrors (do (GPIO_output pin l))
          (MockGPIO.output pin (match l with
                                | LOW => MockGPIO.LOW
                                | HIGH => MockGPIO.HIGH
                                end)).
Proof.
  destruct l; unfold MockGPIO.output; cbn [MockGPIO.LOW MockGPIO.HIGH Z.eqb];
    apply mirrors_gpio; reflexivity.
Qed.

Lemma mirrors_gpio_context_setup :
  mirrors gpio_context_setup (gpio_context_setup_on MockGPIO.module).
Proof.
  unfold gpio_context_setup, gpio_context_setup_on.
  apply mirrors_bind; [apply mirrors_setwarnings | intros _].
  apply mirrors_bind; [apply mirrors_gpio; reflexivity | intros _].
  apply mirrors_bind; [apply mirrors_gpio; reflexivity | intros _].
  apply mirrors_bind; [apply mirrors_gpio; reflexivity | intros _].
  apply mirrors_bind; [apply (mirrors_output _ HIGH) | intros _].
  apply (mirrors_output _ HIGH).
Qed.

Lemma mirrors_flash_led (pin : Z) (duration : Q) :
  mirrors (flash_led pin duration) (flash_led_on MockGPIO.module pin duration).
Proof.
  unfold flash_led, flash_led_on.
  apply mirrors_bind; [apply (mirrors_output _ LOW) | intros _].
  apply mirrors_bind; [apply mirrors_do; reflexivity | intros _].
  apply (mirrors_output _ HIGH).
Qed.

Lemma mirrors_get_integer_input (fuel : nat) (p : string) :
  mirrors (get_integer_input fuel p) (get_integer_input fuel p).
Proof.
  induction fuel as [|fuel IH]; [apply mirrors_diverge|].
  cbn [get_integer_input].
  apply mirrors_bind; [|intros [n|]; [apply mirrors_ret | exact IH]].
  unfold get_integer_input_attempt. apply mirrors_try_except.
  - apply mirrors_bind; [apply mirrors_read_line|].
    intro s. destruct (Py.int s); [apply mirrors_ret | apply mirrors_raise].
  - intros []; cbn; auto;
      (apply mirrors_bind; [apply mirrors_do; reflexivity | intros _]);
      [apply mirrors_raise | apply mirrors_ret].
Qed.

Lemma mirrors_quiz_loop (fuel : nat) :
  mirrors (quiz_loop fuel) (quiz_loop_on MockGPIO.module fuel).
Proof.
  induction fuel as [|fuel IH]; [apply mirrors_diverge|].
  cbn [quiz_loop quiz_loop_on].
  apply mirrors_bind.
  { unfold quiz_round, quiz_round_on.
    do 3 (apply mirrors_bind; [apply mirrors_get_integer_input | intro]).
    unfold feedback, feedback_on.
    destruct (a1 =? a + a0);
      do 2 (apply mirrors_bind; [apply mirrors_do; reflexivity | intros _]);
      apply mirrors_flash_led. }
  intros _. apply mirrors_bind; [apply mirrors_do; reflexivity | intros _].
  apply mirrors_bind; [apply mirrors_read_line | intro again].
  destruct (negb (affirmative again)); [apply mirrors_ret|].
  apply mirrors_bind; [apply mirrors_do; reflexivity | intros _]. exact IH.
Qed.

Lemma mirrors_banner : mirrors banner banner.
Proof.
  unfold banner.
  repeat (apply mirrors_bind; [apply mirrors_do; reflexivity | intros _]).
  apply mirrors_do; reflexivity.
Qed.

Lemma mirrors_run_quiz (fuel : nat) :
  mirrors (run_quiz fuel) (run_quiz_on MockGPIO.module fuel).
Proof.
  unfold run_quiz, run_quiz_on.
  apply mirrors_bind; [apply mirrors_banner | intros _].
  unfold gpio_context, gpio_context_on. apply mirrors_try_finally.
  - apply mirrors_bind; [apply mirrors_gpio_context_setup | intros _].
    unfold quiz_body, quiz_body_on. apply mirrors_try_except.
    + apply mirrors_quiz_loop.
    + intros []; cbn; auto. apply mirrors_do; reflexivity.
  - apply mirrors_gpio; reflexivity.
Qed.

Lemma simulated_no_gpio (d : list event) :
  forallb (fun ev => negb (is_gpio ev)) (flat_map sim_event d) = true.
Proof.
  induction d as [|[c r] d IH]; [reflexivity|].
  cbn [flat_map]. rewrite forallb_app, IH, andb_true_r.
  destruct c as [b|[]|pin []|pin []| |dur|pr|tx]; reflexivity.
Qed.

(** X6. Simulation mode does what the hardware run does.  With no call
    failing, the program over [MockGPIO] reads the same lines, ends the
    same way and leaves the trace of the run over [RPi.GPIO] in which
    every GPIO call is replaced by its [SIM] line ([setwarnings] by
    nothing); it makes no GPIO call at all. *)
Theorem mock_gpio_simulates_the_hardware (fuel : nat) (w : World) :
  faults w = [] ->
  run_quiz_on MockGPIO.module fuel (simulated w)
  = (fst (run_quiz fuel w), simulated (snd (run_quiz fuel w)))
  /\ forallb (fun ev => negb (is_gpio ev))
             (trace (snd (run_quiz_on MockGPIO.module fuel (simulated w))))
     = true.
Proof.
  intro Hw. destruct (mirrors_run_quiz fuel w Hw) as [E _].
  split; [exact E|]. rewrite E. apply simulated_no_gpio.
Qed.

Lemma simulation_of_3_4_8_n :
  faults (session ["3"; "4"; "8"; "n"] []) = []
  /\ run_quiz_on MockGPIO.module 5 (simulated (session ["3"; "4"; "8"; "n"] []))
     = (fst (run_quiz 5 (session ["3"; "4"; "8"; "n"] [])),
        simulated (snd (run_quiz 5 (session ["3"; "4"; "8"; "n"] []))))
  /\ forallb (fun ev => negb (is_gpio ev))
             (trace (snd (run_quiz_on MockGPIO.module 5
                            (simulated (session ["3"; "4"; "8"; "n"] [])))))
     = true.
Proof.
  split; [reflexivity|].
  exact (mock_gpio_simulates_the_hardware 5 (session ["3"; "4"; "8"; "n"] [])
           eq_refl).
Defined.

(** What the simulated wrong answer looks like on the terminal. *)
Lemma simulated_red_pulse :
  skipn 15 (trace (snd (run_quiz_on MockGPIO.module 5
                          (session ["3"; "4"; "8"; "n"] []))))
  = [(print "[SIM] Pin 35 → LOW", Done);
     (time_sleep LED_ON_DURATION, Done);
     (print "[SIM] Pin 35 → HIGH", Done);
     (print "", Done);
     (input "Try another? (y/n): ", Line "n");
     (print "[SIM] GPIO cleanup complete", Done)].
Proof. vm_compute. reflexivity. Qed.

(** The checks of the hardware discipline are not vacuous. *)
Lemma discipline_has_teeth :
  stepwise in_protocol unconfigured [(GPIO_output PIN_GREEN_LED LOW, Done)]
  = false
  /\ stepwise in_protocol unconfigured
       [(GPIO_setup 7 OUT, Done)] = false
  /\ stepwise one_at_a_time unconfigured
       [(GPIO_output PIN_GREEN_LED LOW, Done);
        (GPIO_output PIN_RED_LED LOW, Done)] = false.
Proof. repeat split; reflexivity. Qed.

(** ** No silent failure in flash_led *)

(** X10. Whichever call fails, [flash_led] returns only after the whole
    pulse: LOW written, the sleep of a non-negative [duration] done, HIGH
    written.  Otherwise it raises what the failing call raised right
    after that call, and no later call of the pulse is made. *)
Theorem flash_led_returns_only_after_the_pulse
        (pin : Z) (duration : Q) (w : World) :
  exists d,
    trace (snd (flash_led pin duration w)) = (trace w ++ d)%list
    /\ (fst (flash_led pin duration w) = Ret tt ->
        d = [(GPIO_output pin LOW, Done); (time_sleep duration, Done);
             (GPIO_output pin HIGH, Done)]
        /\ (0 <= duration)%Q)
    /\ (forall e,
          fst (flash_led pin duration w) = Raise e ->
          d = [(GPIO_output pin LOW, Raised e)]
          \/ d = [(GPIO_output pin LOW, Done); (time_sleep duration, Raised e)]
          \/ d = [(GPIO_output pin LOW, Done); (time_sleep duration, Done);
                  (GPIO_output pin HIGH, Raised e)])
    /\ fst (flash_led pin duration w) <> Diverge.
Proof.
  unfold flash_led, bind.
  destruct (do_run (GPIO_output pin LOW) w) as (r1 & w1 & E1 & T1 & F1 & _).
  rewrite E1.
  destruct r1 as [|s|e1]; cbn [reply_ended fits fst snd] in *;
    [ | contradiction | ].
  2:{ exists [(GPIO_output pin LOW, Raised e1)]. split; [exact T1|].
      split; [discriminate|]. split; [|discriminate].
      intros e He. inversion He; subst. auto. }
  assert (Hq : forall r2 w2,
             do (time_sleep duration) w1 = (reply_ended r2, w2) ->
             r2 = Done -> (0 <= duration)%Q).
  { intros r2 w2 E2 ->. unfold do, bind, perform in E2.
    destruct (hd None (faults w1)); [discriminate E2|].
    cbn [answer] in E2.
    destruct (Qle_bool 0 duration) eqn:Eq; [apply Qle_bool_iff, Eq|].
    discriminate E2. }
  destruct (do_run (time_sleep duration) w1) as (r2 & w2 & E2 & T2 & F2 & _).
  specialize (Hq r2 w2 E2). rewrite E2.
  destruct r2 as [|s|e2]; cbn [reply_ended fits fst snd] in *;
    [ | contradiction | ].
  2:{ exists [(GPIO_output pin LOW, Done); (time_sleep duration, Raised e2)].
      split; [rewrite T2, T1, <- app_assoc; reflexivity|].
      split; [discriminate|]. split; [|discriminate].
      intros e He. inversion He; subst. auto. }
  destruct (do_run (GPIO_output pin HIGH) w2) as (r3 & w3 & E3 & T3 & F3 & _).
  rewrite E3.
  exists [(GPIO_output pin LOW, Done); (time_sleep duration, Done);
          (GPIO_output pin HIGH, r3)].
  split; [cbn [snd]; rewrite T3, T2, T1, <- !app_assoc; reflexivity|].
  destruct r3 as [|s|e3]; cbn [reply_ended fits fst snd] in *;
    try contradiction.
  - split; [intros _; split; [reflexivity | apply Hq; reflexivity]|].
    split; [intros e He; discriminate He | discriminate].
  - split; [discriminate|]. split; [|discriminate].
    intros e He. inversion He; subst. auto.
Qed.

(** ** Accounting for the input *)












